(** * connect-dyncache: conditional-caching helpers attached to an Express response

    A shallow embedding of the middleware of [src/unnamed/part_001] (the
    current library: [autoEtag], [setEtag], [setLastModifiedDate],
    [setExpires], [setMaxAge], [setCacheControl], [watchFile], [isWatching],
    [unwatchFile], [isChanged]) and of the older [src/index.js] (only
    [autoEtag], [setEtag], [setLastModifiedDate]), followed by the theorems
    that settle the specification's claims about them.

    Modelling conventions.
    - JavaScript numbers that the code handles are millisecond timestamps and
      ages: they are integers and are modelled by [Z].
    - A [Date] object is either a time value or the Invalid Date; comparing
      with an Invalid Date is false, as comparing with NaN is.
    - Strings or [undefined] are [option string]; a string is truthy when it
      is not empty.
    - The response object [res], the module-level [__watchFiles] object, the
      arrays handed to [setCacheControl] and the calls that leave the
      middleware (file system, console, the original [res.write], [res.end]
      and [res.send]) are one explicit [State], threaded through every
      operation.
    - [__watchFiles] is a finite map of its own properties; names that a
      JavaScript object inherits from [Object.prototype] are not modelled.
    - What the platform provides and the repository does not define (date
      parsing and printing, MD5, [JSON.stringify]) is the interface
      [Runtime]. *)

From Stdlib Require Import ZArith String List Ascii DecimalString.
From stdpp Require Import base gmap strings list.

Local Open Scope string_scope.
Local Open Scope Z_scope.

(** ** JavaScript values used by the middleware *)

Inductive Date : Type :=
  | Date_at (ms : Z)
  | Invalid_Date.

(** [a <= b] on two [Date] objects: both are converted to their time value;
    a comparison with NaN is false. *)
Definition Date_le (a b : Date) : bool :=
  match a, b with
  | Date_at x, Date_at y => x <=? y
  | _, _ => false
  end.

(** Every object is truthy, a [Date] holding NaN included. *)
Definition Date_truthy (d : Date) : bool := true.

(** [new Date(d)] for an argument that is a [Date] or is [undefined]. *)
Definition new_Date (d : option Date) : Date :=
  match d with
  | Some d' => d'
  | None => Invalid_Date
  end.

Definition str_truthy (s : string) : bool :=
  negb (String.eqb s "").

Definition truthy (v : option string) : bool :=
  match v with
  | Some s => str_truthy s
  | None => false
  end.

(** [v == s] where [v] is a string or [undefined] and [s] a string. *)
Definition loose_eq (v : option string) (s : string) : bool :=
  match v with
  | Some t => String.eqb t s
  | None => false
  end.

(** Number to string conversion of ["max-age=" + age], for the integers
    that JavaScript prints in plain decimal notation. *)
Definition Number_toString (z : Z) : string :=
  NilZero.string_of_int (Z.to_int z).

(** [Array.prototype.join]. *)
Fixpoint join (sep : string) (l : list string) : string :=
  match l with
  | [] => ""
  | [x] => x
  | x :: rest => x ++ sep ++ join sep rest
  end.

(** Header names are case-insensitive: Node stores them lower-cased. *)
Definition lower_ascii (c : ascii) : ascii :=
  let n := nat_of_ascii c in
  if (Nat.leb 65 n && Nat.leb n 90)%bool then ascii_of_nat (n + 32) else c.

Fixpoint toLowerCase (s : string) : string :=
  match s with
  | EmptyString => EmptyString
  | String c rest => String (lower_ascii c) (toLowerCase rest)
  end.

(** ** The file system and the platform *)

Record Stats : Type := mkStats {
  mtime : Z;
  size : Z
}.

Class Runtime : Type := {
  Date_parse : string -> Date;
  Date_toString : Date -> string;
  Date_toUTCString : Date -> string;
  md5_hex : string -> string;
  JSON_stringify : Stats -> string
}.

(** What a request handler receives and cannot change: the request's
    headers (keys lower-cased), the files on disk, and the clock, whose
    [k]-th reading is [clock k]. *)
Record Env : Type := mkEnv {
  req_headers : gmap string string;
  files : gmap string Stats;
  clock : nat -> Z
}.

Definition req_get (env : Env) (name : string) : option string :=
  req_headers env !! toLowerCase name.

(** [new Date(req.get(name))]. *)
Definition Date_of_header `{RT : Runtime} (v : option string) : Date :=
  match v with
  | Some s => Date_parse s
  | None => Invalid_Date
  end.

(** ** State *)

(** The variables captured by the [res.write] and [res.end] that one call
    of [autoEtag] installs. [c_hash] is the data fed to the MD5 hash so far,
    [None] when no hash was created. *)
Record Closure : Type := mkClosure {
  c_etag : option string;
  c_lastModified : option string;
  c_hash : option string;
  c_endCalled : bool
}.

(** An entry of [__watchFiles]. *)
Record WatchedFile : Type := mkWatchedFile {
  changed : Z;
  modified : Z;
  expires : Z;
  etag : string
}.

Inductive Event : Type :=
  | ExistsSync (file : string)
  | LstatSync (file : string)
  | LogAdding (file : string)
  | LogStatistics (isEtagged isModified : bool)
  | OriginalWrite (data : string)
  | OriginalEnd (data : option string)
  | Send (body : string).

Record State : Type := mkState {
  headers : gmap string string;
  statusCode : Z;
  _autoEtagSet : bool;
  _dynMaxAge : Z;
  wrappers : list Closure;
  __watchFiles : gmap string WatchedFile;
  heap : gmap nat (list string);
  ticks : nat;
  trace : list Event
}.

Definition with_headers (h : gmap string string) (s : State) : State :=
  mkState h (statusCode s) (_autoEtagSet s) (_dynMaxAge s) (wrappers s)
          (__watchFiles s) (heap s) (ticks s) (trace s).

Definition with_statusCode (c : Z) (s : State) : State :=
  mkState (headers s) c (_autoEtagSet s) (_dynMaxAge s) (wrappers s)
          (__watchFiles s) (heap s) (ticks s) (trace s).

Definition with_autoEtagSet (b : bool) (s : State) : State :=
  mkState (headers s) (statusCode s) b (_dynMaxAge s) (wrappers s)
          (__watchFiles s) (heap s) (ticks s) (trace s).

Definition with_dynMaxAge (a : Z) (s : State) : State :=
  mkState (headers s) (statusCode s) (_autoEtagSet s) a (wrappers s)
          (__watchFiles s) (heap s) (ticks s) (trace s).

Definition with_wrappers (w : list Closure) (s : State) : State :=
  mkState (headers s) (statusCode s) (_autoEtagSet s) (_dynMaxAge s) w
          (__watchFiles s) (heap s) (ticks s) (trace s).

Definition with_watchFiles (w : gmap string WatchedFile) (s : State) : State :=
  mkState (headers s) (statusCode s) (_autoEtagSet s) (_dynMaxAge s)
          (wrappers s) w (heap s) (ticks s) (trace s).

Definition with_heap (h : gmap nat (list string)) (s : State) : State :=
  mkState (headers s) (statusCode s) (_autoEtagSet s) (_dynMaxAge s)
          (wrappers s) (__watchFiles s) h (ticks s) (trace s).

Definition with_ticks (t : nat) (s : State) : State :=
  mkState (headers s) (statusCode s) (_autoEtagSet s) (_dynMaxAge s)
          (wrappers s) (__watchFiles s) (heap s) t (trace s).

Definition emit (e : Event) (s : State) : State :=
  mkState (headers s) (statusCode s) (_autoEtagSet s) (_dynMaxAge s)
          (wrappers s) (__watchFiles s) (heap s) (ticks s) (trace s ++ [e]).

(** A response on which nothing was called yet; [res._dynMaxAge = 0] is set
    by the middleware itself. *)
Definition fresh_response (watched : gmap string WatchedFile) : State :=
  mkState ∅ 200 false 0 [] watched ∅ 0%nat [].

(** ** Primitives of the response and of the platform *)

(** [res.get(name)] *)
Definition res_get (name : string) (s : State) : option string :=
  headers s !! toLowerCase name.

(** [res.set], [res.header] and [res.setHeader] with a string value, while
    the header block of the response is still open. *)
Definition res_set (name value : string) (s : State) : State :=
  with_headers (<[toLowerCase name := value]> (headers s)) s.

(** The header block is sent with the first output of the response: the
    original [res.write], [res.end] or [res.send]. *)
Definition flushes (e : Event) : bool :=
  match e with
  | OriginalWrite _ | OriginalEnd _ | Send _ => true
  | _ => false
  end.

Definition headersSent (s : State) : bool :=
  existsb flushes (trace s).

Inductive Error : Type :=
  | ERR_HTTP_HEADERS_SENT.

(** How a call ends: normally, or with an exception thrown in the state
    reached. *)
Inductive Completion : Type :=
  | Normal (s : State)
  | Throws (error : Error) (s : State).

Definition state_after (r : Completion) : State :=
  match r with
  | Normal s => s
  | Throws _ s => s
  end.

(** [res.setHeader] and [res.header] at any time: Node refuses to set a
    header once the header block was sent. *)
Definition setHeader (name value : string) (s : State) : Completion :=
  if headersSent s then Throws ERR_HTTP_HEADERS_SENT s
  else Normal (res_set name value s).

(** [(new Date()).getTime()]: the next reading of the clock. *)
Definition Date_now (env : Env) (s : State) : Z * State :=
  (clock env (ticks s), with_ticks (S (ticks s)) s).

(** [res.status(304).send("Cached")]. Express ends the response from within
    [send]; the wrapper that is running has set [endCalled] by then and
    hands that call to the original [res.end]. *)
Definition status_send (code : Z) (body : string) (s : State) : State :=
  emit (Send body) (with_statusCode code s).

Definition revalidate : string :=
  "private, must-revalidate, max-age=0, post-check=0, pre-check=0".

(** ** The middleware of [src/unnamed/part_001] *)

Section Middleware.

Context `{RT : Runtime} (env : Env).

(** [hash.update(data)] when a hash was created and its digest was not
    taken yet, that is, in a wrapper whose [res.end] has not run. *)
Definition hash_update (data : string) (c : Closure) : Closure :=
  match c_hash c with
  | Some h => mkClosure (c_etag c) (c_lastModified c) (Some (h ++ data)) (c_endCalled c)
  | None => c
  end.

(** The [res.write] installed by [autoEtag]: every installed wrapper feeds
    its hash and calls the [res.write] it replaced. The original
    [res.write] sends the header block: see [headersSent]. *)
Fixpoint write_via (ws : list Closure) (data : string) (s : State)
  : list Closure * State :=
  match ws with
  | [] => ([], emit (OriginalWrite data) s)
  | c :: olds =>
      let c := hash_update data c in
      let '(olds, s) := write_via olds data s in
      (c :: olds, s)
  end.

Definition res_write (data : string) (s : State) : State :=
  let '(ws, s) := write_via (wrappers s) data s in
  with_wrappers ws s.

(** Lines 70-74: the digest becomes the ETag only when [end] itself is
    given data. *)
Definition digest_on_end (data : option string) (c : Closure) (s : State)
  : Closure * State :=
  match data, c_hash c with
  | Some d, Some h =>
      if str_truthy d then
        let etag := md5_hex (h ++ d) in
        (mkClosure (Some etag) (c_lastModified c) (Some (h ++ d)) (c_endCalled c),
         res_set "Etag" etag s)
      else (c, s)
  | _, _ => (c, s)
  end.

(** Line 80: [etag && req.header("if-none-match") == etag]. *)
Definition etag_matches (etag : option string) : bool :=
  match etag with
  | Some e => str_truthy e && loose_eq (req_get env "if-none-match") e
  | None => false
  end.

(** Lines 86-89: the Last-Modified comparison of [res.end]. *)
Definition lastModified_matches (lastModified : option string) : bool :=
  match lastModified with
  | Some lm =>
      str_truthy lm &&
      (let lastModified := Date_parse lm in
       let ifModSince := Date_of_header (req_get env "if-modified-since") in
       truthy (req_get env "if-modified-since") && Date_le lastModified ifModSince)
  | None => false
  end.

Definition not_modified (s : State) : State :=
  status_send 304 "Cached" (res_set "Cache-Control" revalidate s).

(** The [res.end] installed by [autoEtag]. [ws] are the installed wrappers,
    the outermost first; the tail of the list is [oldEnd]. Its header
    writes are those of a response whose header block is open, as it is
    when the body is given to [res.end] and nothing was streamed before;
    the [res.end] of [src/index.js] below, which sets a header on every
    call, is given with the refusal of Node after the block was sent. *)
Fixpoint end_via (ws : list Closure) (data : option string) (s : State)
  : list Closure * State :=
  match ws with
  | [] => ([], emit (OriginalEnd data) s)
  | c :: olds =>
      if c_endCalled c then
        let '(olds, s) := end_via olds data s in (c :: olds, s)
      else
        let c := mkClosure (c_etag c) (c_lastModified c) (c_hash c) true in
        let '(c, s) := digest_on_end data c s in
        if etag_matches (c_etag c) then (c :: olds, not_modified s)
        else if lastModified_matches (c_lastModified c) then (c :: olds, not_modified s)
        else let '(olds, s) := end_via olds data s in (c :: olds, s)
  end.

Definition res_end (data : option string) (s : State) : State :=
  let '(ws, s) := end_via (wrappers s) data s in
  with_wrappers ws s.

(** A handler that streams [chunks] with successive calls of [res.write]. *)
Definition write_all (chunks : list string) (s : State) : State :=
  fold_left (fun s data => res_write data s) chunks s.

Definition autoEtag (s : State) : State :=
  if _autoEtagSet s then s
  else
    let etag := res_get "Etag" s in
    let lastModified := res_get "Last-Modified" s in
    let hash := if truthy etag || truthy lastModified then None else Some "" in
    let s := with_wrappers (mkClosure etag lastModified hash false :: wrappers s) s in
    with_autoEtagSet true s.

Definition setEtag (etag : string) (s : State) : bool * State :=
  let s := res_set "Etag" etag s in
  let s := autoEtag s in
  if str_truthy etag && loose_eq (req_get env "if-none-match") etag
  then (true, s) else (false, s).

Definition setLastModifiedDate (date : Date) (s : State) : bool * State :=
  let s := res_set "Last-Modified" (Date_toString date) s in
  let s := autoEtag s in
  let ifModSince := Date_of_header (req_get env "if-modified-since") in
  if Date_truthy ifModSince && Date_le date ifModSince
  then (false, s) else (true, s).

(** [date = new Date(date) || new Date((new Date()).getTime() + res._dynMaxAge)] *)
Definition setExpires (date : option Date) (s : State) : State :=
  let d := new_Date date in
  if Date_truthy d then res_set "Expires" (Date_toUTCString d) s
  else
    let '(now, s) := Date_now env s in
    res_set "Expires" (Date_toUTCString (Date_at (now + _dynMaxAge s))) s.

Definition setMaxAge (age : Z) (s : State) : State :=
  with_dynMaxAge age s.

(** [keywords] is a reference to an array of the heap, or [undefined];
    [age] a number, or [undefined]. A reference always designates an array:
    nothing is done for a location outside the heap. *)
Definition setCacheControl (age : option Z) (keywords : option nat) (s : State)
  : State :=
  let '(keywords, s) :=
    match keywords with
    | Some l => (l, s)
    | None =>
        let l := fresh (dom (heap s)) in
        (l, with_heap (<[l := ["public"]]> (heap s)) s)
    end in
  let age :=
    match age with
    | Some a => if a =? 0 then _dynMaxAge s else a
    | None => _dynMaxAge s
    end in
  match heap s !! keywords with
  | Some ks =>
      let ks := (ks ++ [("max-age=" ++ Number_toString age)%string])%list in
      let s := with_heap (<[keywords := ks]> (heap s)) s in
      let str := join ", " ks in
      res_set "Cache-control" str s
  | None => s
  end.

(** [false] on error is [None]. *)
Definition watchFile (file : string) (s : State)
  : option (WatchedFile * Stats) * State :=
  let s := emit (ExistsSync file) s in
  match files env !! file with
  | Some stats =>
      let s := emit (LogAdding file) s in
      let '(now, s) := Date_now env s in
      let s := emit (LstatSync file) s in
      let obj :=
        mkWatchedFile now (mtime stats) (mtime stats + _dynMaxAge s)
                      (md5_hex (JSON_stringify stats)) in
      let s := with_watchFiles (<[file := obj]> (__watchFiles s)) s in
      (Some (obj, stats), s)
  | None => (None, s)
  end.

(** [file in __watchFiles], for the own properties of the object: the
    paths added by [watchFile]. *)
Definition isWatching (file : string) (s : State) : bool :=
  bool_decide (is_Some (__watchFiles s !! file)).

Definition unwatchFile (file : string) (s : State) : State :=
  if isWatching file s
  then with_watchFiles (delete file (__watchFiles s)) s
  else s.

(** A call of [isChanged] either returns or is still running when the fuel
    (the depth of calls allowed) is used up. *)
Inductive Outcome : Type :=
  | Returned (b : bool) (s : State)
  | OutOfFuel (s : State).

Fixpoint isChanged (fuel : nat) (file : string) (force : option bool) (s : State)
  : Outcome :=
  match fuel with
  | O => OutOfFuel s
  | S fuel =>
      let force := default false force in
      if isWatching file s then
        match __watchFiles s !! file with
        | Some obj =>
            let '(now, s) := Date_now env s in
            if force || (expires obj <? now) then
              let s := with_watchFiles (delete file (__watchFiles s)) s in
              let '(_, s) := watchFile file s in
              isChanged fuel file None s
            else
              let '(isEtagged, s) := setEtag (etag obj) s in
              let '(isModified, s) := setLastModifiedDate (Date_at (modified obj)) s in
              let s := emit (LogStatistics isEtagged isModified) s in
              if negb isModified && isEtagged then Returned false s
              else Returned true s
        | None => Returned true s (* not reached: [file in __watchFiles] *)
        end
      else Returned true s
  end.

End Middleware.

(** The number of [fs.lstatSync] calls made so far. *)
Definition is_lstat (e : Event) : bool :=
  match e with
  | LstatSync _ => true
  | _ => false
  end.

Definition restats (s : State) : nat :=
  length (List.filter is_lstat (trace s)).

(** ** The older middleware of [src/index.js] *)

Module IndexJs.

Section Middleware.

Context `{RT : Runtime} (env : Env).

(** [res.send("Cached", 304)] *)
Definition send_cached (s : State) : State :=
  status_send 304 "Cached" s.

(** Lines 32-36: as in the current file, with [res.setHeader] checked. The
    digest is taken and assigned before the header is set. *)
Definition digest_on_end (data : option string) (c : Closure) (s : State)
  : Closure * Completion :=
  match data, c_hash c with
  | Some d, Some h =>
      if str_truthy d then
        let etag := md5_hex (h ++ d) in
        (mkClosure (Some etag) (c_lastModified c) (Some (h ++ d)) (c_endCalled c),
         setHeader "Etag" etag s)
      else (c, Normal s)
  | _, _ => (c, Normal s)
  end.

Fixpoint end_via (ws : list Closure) (data : option string) (s : State)
  : list Closure * Completion :=
  match ws with
  | [] => ([], Normal (emit (OriginalEnd data) s))
  | c :: olds =>
      if c_endCalled c then
        let '(olds, r) := end_via olds data s in (c :: olds, r)
      else
        let c := mkClosure (c_etag c) (c_lastModified c) (c_hash c) true in
        match digest_on_end data c s with
        | (c, Throws error s) => (c :: olds, Throws error s)
        | (c, Normal s) =>
            match setHeader "Cache-Control" revalidate s with
            | Throws error s => (c :: olds, Throws error s)
            | Normal s =>
                if etag_matches env (c_etag c) then (c :: olds, Normal (send_cached s))
                else if lastModified_matches env (c_lastModified c)
                then (c :: olds, Normal (send_cached s))
                else let '(olds, r) := end_via olds data s in (c :: olds, r)
            end
        end
  end.

Definition res_end (data : option string) (s : State) : Completion :=
  let '(ws, r) := end_via (wrappers s) data s in
  match r with
  | Normal s => Normal (with_wrappers ws s)
  | Throws error s => Throws error (with_wrappers ws s)
  end.

Definition setEtag (etag : string) (s : State) : bool * State :=
  let s := res_set "Etag" etag s in
  let s := autoEtag s in
  if str_truthy etag && loose_eq (req_get env "if-none-match") etag
  then (false, s) else (true, s).

End Middleware.

End IndexJs.

(** ** A runtime to run the model on concrete inputs

    Dates are printed and parsed as a JavaScript engine in the UTC time zone
    does for the two formats that the middleware produces and receives
    ([toUTCString], the HTTP-date, and [toString]); any other string parses
    to the Invalid Date. The digest is a stand-in for MD5 (thirty-two
    hexadecimal digits computed from the character codes) and the
    serialization lists the two modelled fields of [Stats]. *)

Module SampleRuntime.

Definition day_names : list string :=
  ["Sun"; "Mon"; "Tue"; "Wed"; "Thu"; "Fri"; "Sat"].

Definition month_names : list string :=
  ["Jan"; "Feb"; "Mar"; "Apr"; "May"; "Jun";
   "Jul"; "Aug"; "Sep"; "Oct"; "Nov"; "Dec"].

Definition pad (width : nat) (z : Z) : string :=
  let digits := Number_toString z in
  (String.concat "" (repeat "0" (width - String.length digits)) ++ digits)%string.

(** Year, month (1-12) and day of the month of a day number counted from
    1 January 1970, in the proleptic Gregorian calendar. *)
Definition civil_from_days (days : Z) : Z * Z * Z :=
  let z := days + 719468 in
  let era := z / 146097 in
  let doe := z - era * 146097 in
  let yoe := (doe - doe / 1460 + doe / 36524 - doe / 146096) / 365 in
  let doy := doe - (365 * yoe + yoe / 4 - yoe / 100) in
  let mp := (5 * doy + 2) / 153 in
  let d := doy - (153 * mp + 2) / 5 + 1 in
  let m := if mp <? 10 then mp + 3 else mp - 9 in
  let y := yoe + era * 400 in
  (if m <=? 2 then y + 1 else y, m, d).

Definition days_from_civil (y m d : Z) : Z :=
  let y := if m <=? 2 then y - 1 else y in
  let era := y / 400 in
  let yoe := y - era * 400 in
  let mp := if 2 <? m then m - 3 else m + 9 in
  let doy := (153 * mp + 2) / 5 + d - 1 in
  let doe := yoe * 365 + yoe / 4 - yoe / 100 + doy in
  era * 146097 + doe - 719468.

Definition clock_time (ms : Z) : string :=
  let secs := (ms / 1000) mod 86400 in
  (pad 2 (secs / 3600) ++ ":" ++ pad 2 ((secs / 60) mod 60) ++ ":" ++ pad 2 (secs mod 60))%string.

Definition name_of (names : list string) (i : Z) : string :=
  nth (Z.to_nat i) names "".

Definition toUTCString (d : Date) : string :=
  match d with
  | Invalid_Date => "Invalid Date"
  | Date_at ms =>
      let days := ms / 86400000 in
      let '(y, m, dd) := civil_from_days days in
      (name_of day_names ((days + 4) mod 7) ++ ", " ++ pad 2 dd ++ " "
        ++ name_of month_names (m - 1) ++ " " ++ pad 4 y ++ " "
        ++ clock_time ms ++ " GMT")%string
  end.

Definition toString (d : Date) : string :=
  match d with
  | Invalid_Date => "Invalid Date"
  | Date_at ms =>
      let days := ms / 86400000 in
      let '(y, m, dd) := civil_from_days days in
      (name_of day_names ((days + 4) mod 7) ++ " "
        ++ name_of month_names (m - 1) ++ " " ++ pad 2 dd ++ " " ++ pad 4 y ++ " "
        ++ clock_time ms ++ " GMT+0000 (Coordinated Universal Time)")%string
  end.

Definition number_at (start len : nat) (s : string) : option Z :=
  Z.of_uint <$> NilEmpty.uint_of_string (substring start len s).

Fixpoint index_of (x : string) (l : list string) (i : Z) : option Z :=
  match l with
  | [] => None
  | y :: rest => if String.eqb x y then Some i else index_of x rest (i + 1)
  end.

(** The fields of a date at the given positions of [s]. *)
Definition fields_at (day month year time : nat) (s : string) : Date :=
  match number_at day 2 s, index_of (substring month 3 s) month_names 1,
        number_at year 4 s, number_at time 2 s, number_at (time + 3) 2 s,
        number_at (time + 6) 2 s with
  | Some d, Some m, Some y, Some hh, Some mm, Some ss =>
      if (1 <=? d) && (d <=? 31) && (hh <? 24) && (mm <? 60) && (ss <? 60) then
        Date_at ((days_from_civil y m d * 86400 + hh * 3600 + mm * 60 + ss) * 1000)
      else Invalid_Date
  | _, _, _, _, _, _ => Invalid_Date
  end.

Definition parse (s : string) : Date :=
  if (String.length s =? 29)%nat && String.eqb (substring 25 4 s) " GMT"
  then fields_at 5 8 12 17 s
  else if String.eqb (substring 24 9 s) " GMT+0000"
  then fields_at 8 4 11 16 s
  else Invalid_Date.

Definition hex_digit (n : Z) : ascii :=
  nth (Z.to_nat (n mod 16)) (list_ascii_of_string "0123456789abcdef") "0"%char.

Fixpoint digest_from (n : nat) (seed : Z) : string :=
  match n with
  | O => EmptyString
  | S n' => String (hex_digit seed) (digest_from n' ((seed * 7 + 3) mod 65521))
  end.

Definition digest (s : string) : string :=
  digest_from 32
    (fold_right (fun c acc => (Z.of_nat (nat_of_ascii c) + 31 * acc) mod 65521)
                (Z.of_nat (String.length s)) (list_ascii_of_string s)).

Definition quoted (s : string) : string :=
  String (ascii_of_nat 34) (s ++ String (ascii_of_nat 34) EmptyString)%string.

Definition stringify (st : Stats) : string :=
  ("{" ++ quoted "size" ++ ":" ++ Number_toString (size st) ++ ","
       ++ quoted "mtime" ++ ":" ++ Number_toString (mtime st) ++ "}")%string.

Definition runtime : Runtime :=
  {| Date_parse := parse;
     Date_toString := toString;
     Date_toUTCString := toUTCString;
     md5_hex := digest;
     JSON_stringify := stringify |}.

End SampleRuntime.



(** ** Handlers as sequences of calls

    What a request handler does with the response is a sequence of calls of
    the operations above. A call of [isChanged] that does not return leaves
    the state it reached. *)

Inductive Call : Type :=
  | Call_autoEtag
  | Call_setEtag (etag : string)
  | Call_setLastModifiedDate (date : Date)
  | Call_setExpires (date : option Date)
  | Call_setMaxAge (age : Z)
  | Call_setCacheControl (age : option Z) (keywords : option nat)
  | Call_watchFile (file : string)
  | Call_unwatchFile (file : string)
  | Call_isChanged (fuel : nat) (file : string) (force : option bool)
  | Call_write (data : string)
  | Call_end (data : option string).

Definition state_of (o : Outcome) : State :=
  match o with
  | Returned _ s => s
  | OutOfFuel s => s
  end.

Definition run_call `{RT : Runtime} (env : Env) (c : Call) (s : State) : State :=
  match c with
  | Call_autoEtag => autoEtag s
  | Call_setEtag etag => snd (setEtag env etag s)
  | Call_setLastModifiedDate date => snd (setLastModifiedDate env date s)
  | Call_setExpires date => setExpires env date s
  | Call_setMaxAge age => setMaxAge age s
  | Call_setCacheControl age keywords => setCacheControl age keywords s
  | Call_watchFile file => snd (watchFile env file s)
  | Call_unwatchFile file => unwatchFile file s
  | Call_isChanged fuel file force => state_of (isChanged env fuel file force s)
  | Call_write data => res_write data s
  | Call_end data => res_end env data s
  end.

Definition run_calls `{RT : Runtime} (env : Env) (cs : list Call) (s : State) : State :=
  fold_left (fun s c => run_call env c s) cs s.

(** The wrappers of a response agree with its [_autoEtagSet] flag: none
    while the flag is unset, exactly one once it is set. *)
Definition hooks_ok (s : State) : Prop :=
  (_autoEtagSet s = false /\ wrappers s = [])
  \/ (_autoEtagSet s = true /\ length (wrappers s) = 1%nat).

(** The names that every plain object inherits from [Object.prototype]:
    [name in __watchFiles] holds for them although they were never added,
    and [delete] does not remove them. The finite map [__watchFiles] has
    own properties only, so the operations of the watch cache are those of
    the code for every other path. *)
Definition Object_prototype_names : list string :=
  ["constructor"; "__defineGetter__"; "__defineSetter__"; "hasOwnProperty";
   "__lookupGetter__"; "__lookupSetter__"; "isPrototypeOf";
   "propertyIsEnumerable"; "toString"; "valueOf"; "__proto__"; "toLocaleString"].

Definition inherited (name : string) : bool :=
  existsb (String.eqb name) Object_prototype_names.

(** ** Sample requests and files *)

Module Samples.

Definition rt : Runtime := SampleRuntime.runtime.

Definition file : string := "/tmp/f".

(** A request whose [If-Modified-Since] is two seconds after the epoch. *)
Definition conditional_request : gmap string string :=
  {[ "if-modified-since" := "Thu, 01 Jan 1970 00:00:02 GMT" ]}.

Definition env_since_2s : Env :=
  mkEnv conditional_request ∅ (fun k => 5000 + Z.of_nat k).

(** A request whose [If-Modified-Since] is not a date. *)
Definition env_malformed : Env :=
  mkEnv {[ "if-modified-since" := "yesterday" ]} ∅ (fun k => 5000 + Z.of_nat k).

(** The entry of a file last modified one second after the epoch, cached
    with a max-age of one minute. *)
Definition entry : WatchedFile :=
  mkWatchedFile 1500 1000 61000 "0123456789abcdef0123456789abcdef".

Definition watching : State :=
  setMaxAge 60000 (fresh_response {[ file := entry ]}).

(** A request that carries both validators of [entry], five seconds after
    the epoch; the file is still on disk. *)
Definition env_revalidating : Env :=
  mkEnv {[ "if-none-match" := "0123456789abcdef0123456789abcdef";
           "if-modified-since" := "Thu, 01 Jan 1970 00:00:02 GMT" ]}
        {[ file := mkStats 1000 10 ]}
        (fun k => 5000 + Z.of_nat k).

(** The same request after the file was removed from the disk. *)
Definition env_removed : Env :=
  mkEnv (req_headers env_revalidating) ∅ (clock env_revalidating).

(** An hour after the epoch: [entry] has expired, and the file on disk was
    not modified since it was cached. *)
Definition env_stale : Env :=
  mkEnv ∅ {[ file := mkStats 1000 10 ]} (fun k => 3600000 + Z.of_nat k).

(** An hour after the epoch, the file having been modified ten seconds
    before. *)
Definition env_modified : Env :=
  mkEnv ∅ {[ file := mkStats 3590000 12 ]} (fun k => 3600000 + Z.of_nat k).

(** A response on which auto-negotiation was enabled first. *)
Definition streaming : State := autoEtag (fresh_response ∅).

(** A response whose handler holds the array [["public"]] at location 7. *)
Definition with_keywords : State :=
  with_heap {[ 7%nat := ["public"] ]} (fresh_response ∅).

(** A handler that declares, streams and ends, calling [autoEtag] again on
    the way. *)
Definition handler : list Call :=
  [Call_setMaxAge 60000; Call_setEtag "v1"; Call_autoEtag;
   Call_setLastModifiedDate (Date_at 1000); Call_write "Hello";
   Call_autoEtag; Call_end (Some ", world"); Call_end None].

(** Two watched files, with a max-age of a minute. *)
Definition other_entry : WatchedFile :=
  mkWatchedFile 1500 1200 61200 "fedcba9876543210fedcba9876543210".

Definition watching_two : State :=
  setMaxAge 60000 (fresh_response {[ file := entry; "/tmp/g" := other_entry ]}).

(** A stored max-age of a minute, and the array [["public"]] at location 7. *)
Definition with_keywords_and_age : State := setMaxAge 60000 with_keywords.

End Samples.
(** ** Basic facts about the response primitives *)

Section Facts.

Context `{RT : Runtime} (env : Env).

Lemma res_get_set_same (a b v : string) (s : State) :
  toLowerCase a = toLowerCase b -> res_get a (res_set b v s) = Some v.
Proof.
  intros Hab. unfold res_get, res_set. simpl. rewrite Hab.
  apply lookup_insert_eq.
Qed.

Lemma res_get_set_other (a b v : string) (s : State) :
  toLowerCase a <> toLowerCase b -> res_get a (res_set b v s) = res_get a s.
Proof.
  intros Hab. unfold res_get, res_set. simpl.
  apply lookup_insert_ne. congruence.
Qed.

Lemma autoEtag_headers (s : State) : headers (autoEtag s) = headers s.
Proof. unfold autoEtag. destruct (_autoEtagSet s); reflexivity. Qed.

Lemma autoEtag_watchFiles (s : State) : __watchFiles (autoEtag s) = __watchFiles s.
Proof. unfold autoEtag. destruct (_autoEtagSet s); reflexivity. Qed.

Lemma autoEtag_set (s : State) : _autoEtagSet (autoEtag s) = true.
Proof. unfold autoEtag. destruct (_autoEtagSet s) eqn:E; [exact E | reflexivity]. Qed.

Lemma str_truthy_true (v : string) : v <> "" -> str_truthy v = true.
Proof.
  intros Hv. unfold str_truthy. apply negb_true_iff, String.eqb_neq. exact Hv.
Qed.

Lemma loose_eq_true (v : option string) (e : string) :
  loose_eq v e = true <-> v = Some e.
Proof.
  destruct v as [t|]; simpl.
  - rewrite String.eqb_eq. split; congruence.
  - split; discriminate.
Qed.

Lemma isWatching_false (file : string) (s : State) :
  isWatching file s = false <-> __watchFiles s !! file = None.
Proof.
  unfold isWatching. rewrite bool_decide_eq_false.
  rewrite <- eq_None_not_Some. reflexivity.
Qed.

Lemma setEtag_eq (e : string) (s : State) :
  setEtag env e s =
    (str_truthy e && loose_eq (req_get env "if-none-match") e,
     autoEtag (res_set "Etag" e s)).
Proof.
  unfold setEtag.
  destruct (str_truthy e && loose_eq (req_get env "if-none-match") e); reflexivity.
Qed.

Lemma setLastModifiedDate_eq (date : Date) (s : State) :
  setLastModifiedDate env date s =
    (negb (Date_le date (Date_of_header (req_get env "if-modified-since"))),
     autoEtag (res_set "Last-Modified" (Date_toString date) s)).
Proof.
  unfold setLastModifiedDate, Date_truthy.
  destruct (Date_le date _); reflexivity.
Qed.

Lemma isWatching_true (file : string) (s : State) (obj : WatchedFile) :
  __watchFiles s !! file = Some obj -> isWatching file s = true.
Proof.
  intros Hobj. unfold isWatching. apply bool_decide_eq_true. rewrite Hobj. eauto.
Qed.

Lemma Date_le_Invalid_r (d : Date) : Date_le d Invalid_Date = false.
Proof. destruct d; reflexivity. Qed.

Lemma Date_le_true (a b : Date) :
  Date_le a b = true <-> exists x y, a = Date_at x /\ b = Date_at y /\ x <= y.
Proof.
  split.
  - destruct a as [x|], b as [y|]; simpl; try discriminate.
    intros Hle. exists x, y. repeat split. apply Z.leb_le. exact Hle.
  - intros (x & y & -> & -> & Hle). simpl. apply Z.leb_le. exact Hle.
Qed.

End Facts.

(** ** Claims *)

Section Claims.

Context `{RT : Runtime} (env : Env).

(** C1. [isChanged] returns [true] for a path that is not watched. For a
    watched path whose entry is not expired at the time of the call and
    without [force], it returns, and it returns [false] (unchanged) if and
    only if both signals agree: the Last-Modified comparison reports no
    change ([If-Modified-Since] is a valid date not earlier than the entry's
    modification time) and the request's [If-None-Match] is the stored
    ETag. The stored ETag is a digest, hence not the empty string. *)
Theorem isChanged_verdict (fuel : nat) (file : string) (force : option bool) (s : State) :
  (isWatching file s = false ->
   isChanged env (S fuel) file force s = Returned true s)
  /\ (forall obj,
        __watchFiles s !! file = Some obj ->
        etag obj <> "" ->
        force <> Some true ->
        clock env (ticks s) <= expires obj ->
        exists b s',
          isChanged env (S fuel) file force s = Returned b s'
          /\ (b = false <->
              (exists since,
                 Date_of_header (req_get env "if-modified-since") = Date_at since
                 /\ modified obj <= since)
              /\ req_get env "if-none-match" = Some (etag obj))).
Proof.
  split.
  - intros Hnot. cbn [isChanged]. rewrite Hnot. reflexivity.
  - intros obj Hobj Hetag Hforce Hfresh. cbn [isChanged].
    rewrite (isWatching_true _ _ _ Hobj), Hobj.
    assert (Hf : default false force = false).
    { destruct force as [[|]|]; [congruence | reflexivity | reflexivity]. }
    assert (Hexp : (expires obj <? clock env (ticks s)) = false)
      by (apply Z.ltb_ge; exact Hfresh).
    rewrite Hf. unfold Date_now. rewrite Hexp. cbn [orb].
    rewrite setEtag_eq, setLastModifiedDate_eq, (str_truthy_true _ Hetag).
    cbn [andb].
    destruct (loose_eq (req_get env "if-none-match") (etag obj)) eqn:Hinm;
      destruct (Date_le (Date_at (modified obj))
                  (Date_of_header (req_get env "if-modified-since"))) eqn:Hle;
      cbn [negb andb]; eexists _, _; (split; [reflexivity |]).
    + split; [intros _ | reflexivity]. split.
      * apply Date_le_true in Hle. destruct Hle as (x & y & Hx & Hy & Hxy).
        exists y. inversion Hx. subst. split; [exact Hy | exact Hxy].
      * apply loose_eq_true. exact Hinm.
    + split; [discriminate |]. intros [(since & Hs & Hm) _].
      rewrite Hs in Hle. simpl in Hle. apply Z.leb_gt in Hle. lia.
    + split; [discriminate |]. intros [_ Hm].
      apply loose_eq_true in Hm. congruence.
    + split; [discriminate |]. intros [_ Hm].
      apply loose_eq_true in Hm. congruence.
Qed.

(** C2, as amended. [setLastModifiedDate] sets the [Last-Modified] header to
    the date's string and returns [false] exactly when the resource is
    unchanged relative to the request: [If-Modified-Since] parses to a valid
    timestamp and the date is a valid one not later than it. In every other
    case (later date, absent or unparsable header, invalid date) it returns
    [true]. The caller may short-circuit on [false]. *)
Theorem setLastModifiedDate_false_iff_unchanged (date : Date) (s : State) :
  res_get "Last-Modified" (snd (setLastModifiedDate env date s))
    = Some (Date_toString date)
  /\ (fst (setLastModifiedDate env date s) = false <->
      exists d since,
        date = Date_at d
        /\ Date_of_header (req_get env "if-modified-since") = Date_at since
        /\ d <= since).
Proof.
  unfold setLastModifiedDate. simpl.
  destruct (Date_le date (Date_of_header (req_get env "if-modified-since"))) eqn:Hle;
    simpl; split.
  - unfold res_get. rewrite autoEtag_headers. apply lookup_insert_eq.
  - split; [intros _ | reflexivity]. apply Date_le_true. exact Hle.
  - unfold res_get. rewrite autoEtag_headers. apply lookup_insert_eq.
  - split; [discriminate |].
    intros Hex. apply Date_le_true in Hex. congruence.
Qed.

(** C5. When the request's [If-Modified-Since] is absent or does not parse
    to a valid timestamp, the Last-Modified comparison never matches:
    [setLastModifiedDate] answers "changed" ([true]) for every date; the
    comparison of [res.end] is false for every declared [Last-Modified]; and
    [res.end] runs as if its Last-Modified branch were not there (only the
    ETag branch can answer 304). *)
Theorem invalid_if_modified_since_never_matches :
  (req_get env "if-modified-since" = None
   \/ exists v, req_get env "if-modified-since" = Some v /\ Date_parse v = Invalid_Date) ->
  (forall date s, fst (setLastModifiedDate env date s) = true)
  /\ (forall lastModified, lastModified_matches env lastModified = false)
  /\ (forall c olds data s,
        c_endCalled c = false ->
        end_via env (c :: olds) data s =
          let c := mkClosure (c_etag c) (c_lastModified c) (c_hash c) true in
          let '(c, s) := digest_on_end data c s in
          if etag_matches env (c_etag c) then (c :: olds, not_modified s)
          else let '(olds, s) := end_via env olds data s in (c :: olds, s)).
Proof.
  intros Hims.
  assert (Hinv : Date_of_header (req_get env "if-modified-since") = Invalid_Date).
  { destruct Hims as [-> | (v & -> & Hv)]; [reflexivity | exact Hv]. }
  assert (Hlm : forall lastModified, lastModified_matches env lastModified = false).
  { intros [lm|]; [| reflexivity]. unfold lastModified_matches.
    rewrite Hinv, Date_le_Invalid_r, andb_false_r, andb_false_r. reflexivity. }
  split; [| split].
  - intros date s. unfold setLastModifiedDate.
    rewrite Hinv, Date_le_Invalid_r. reflexivity.
  - exact Hlm.
  - intros c olds data s Hend. simpl. rewrite Hend.
    destruct (digest_on_end data _ s) as [c' s'].
    rewrite Hlm. reflexivity.
Qed.

(** C7. A second call of [autoEtag] changes nothing: the state, and so
    everything observable afterwards, is the one left by the first call, and
    a response on which it was not yet enabled carries exactly one more
    [res.write]/[res.end] wrapper however often [autoEtag] is called. *)
Theorem autoEtag_idempotent (s : State) :
  autoEtag (autoEtag s) = autoEtag s
  /\ (_autoEtagSet s = false ->
      length (wrappers (autoEtag (autoEtag s))) = S (length (wrappers s))).
Proof.
  assert (Hidem : autoEtag (autoEtag s) = autoEtag s).
  { unfold autoEtag at 1. rewrite autoEtag_set. reflexivity. }
  split; [exact Hidem |].
  intros Hoff. rewrite Hidem. unfold autoEtag. rewrite Hoff. reflexivity.
Qed.

End Claims.

Section MoreClaims.

Context `{RT : Runtime} (env : Env).

(** C4, as amended. For a path that does not exist, [watchFile] returns its
    failure value and leaves [__watchFiles] as it was (an entry cached for
    the path earlier stays). For an existing path it returns the new entry
    with the file's stats and stores that entry under the path, replacing
    any previous one; the entry's [modified] is the [mtime] of the stats and
    its [expires] is [mtime] plus the max-age configured at that time. *)
Theorem watchFile_spec (file : string) (s : State) :
  (files env !! file = None ->
   fst (watchFile env file s) = None
   /\ __watchFiles (snd (watchFile env file s)) = __watchFiles s)
  /\ (forall stats,
        files env !! file = Some stats ->
        exists obj,
          fst (watchFile env file s) = Some (obj, stats)
          /\ __watchFiles (snd (watchFile env file s)) = <[file := obj]> (__watchFiles s)
          /\ modified obj = mtime stats
          /\ expires obj = mtime stats + _dynMaxAge s).
Proof.
  unfold watchFile. split.
  - intros Hnone. rewrite Hnone. split; reflexivity.
  - intros stats Hsome. rewrite Hsome. simpl.
    eexists. repeat split.
Qed.

(** C8, as amended. [setCacheControl] sets the [Cache-Control] header to
    the keywords followed by [max-age=<age>], joined with a comma and a
    space, and pushes that last item onto the array it was given. The age is
    the one passed when it is not 0; an omitted age and an age of 0 are
    both replaced by the stored max-age. Omitted keywords are [["public"]];
    with 3600 and [["public"]] the header is ["public, max-age=3600"]. *)
Theorem setCacheControl_spec (s : State) :
  (forall l ks a,
     heap s !! l = Some ks -> a <> 0 ->
     let s' := setCacheControl (Some a) (Some l) s in
     let pushed := (ks ++ [("max-age=" ++ Number_toString a)%string])%list in
     res_get "Cache-Control" s' = Some (join ", " pushed)
     /\ heap s' !! l = Some pushed)
  /\ (forall l ks age,
        heap s !! l = Some ks ->
        age = None \/ age = Some 0 ->
        let s' := setCacheControl age (Some l) s in
        let pushed :=
          (ks ++ [("max-age=" ++ Number_toString (_dynMaxAge s))%string])%list in
        res_get "Cache-Control" s' = Some (join ", " pushed)
        /\ heap s' !! l = Some pushed)
  /\ (forall a,
        a <> 0 ->
        res_get "Cache-Control" (setCacheControl (Some a) None s)
          = Some ("public, max-age=" ++ Number_toString a)%string)
  /\ (forall age,
        age = None \/ age = Some 0 ->
        res_get "Cache-Control" (setCacheControl age None s)
          = Some ("public, max-age=" ++ Number_toString (_dynMaxAge s))%string)
  /\ (forall l,
        heap s !! l = Some ["public"] ->
        let s' := setCacheControl (Some 3600) (Some l) s in
        res_get "Cache-Control" s' = Some "public, max-age=3600"
        /\ heap s' !! l = Some ["public"; "max-age=3600"]).
Proof.
  assert (Hgen : forall l ks a,
     heap s !! l = Some ks -> a <> 0 ->
     let s' := setCacheControl (Some a) (Some l) s in
     let pushed := (ks ++ [("max-age=" ++ Number_toString a)%string])%list in
     res_get "Cache-Control" s' = Some (join ", " pushed)
     /\ heap s' !! l = Some pushed).
  { intros l ks a Hl Ha. unfold setCacheControl.
    apply Z.eqb_neq in Ha. rewrite Ha, Hl. split.
    - apply res_get_set_same. reflexivity.
    - simpl. apply lookup_insert_eq. }
  split; [exact Hgen | split; [| split; [| split]]].
  - intros l ks age Hl Hage. unfold setCacheControl.
    destruct Hage as [-> | ->]; cbn [Z.eqb]; rewrite Hl; (split;
      [apply res_get_set_same; reflexivity | simpl; apply lookup_insert_eq]).
  - intros a Ha. unfold setCacheControl.
    apply Z.eqb_neq in Ha. cbn [_dynMaxAge with_heap heap]. rewrite Ha.
    rewrite lookup_insert_eq.
    rewrite res_get_set_same by reflexivity. reflexivity.
  - intros age Hage. unfold setCacheControl.
    destruct Hage as [-> | ->]; cbn [Z.eqb _dynMaxAge with_heap heap];
      rewrite lookup_insert_eq;
      rewrite res_get_set_same by reflexivity; reflexivity.
  - intros l Hl. apply (Hgen l ["public"] 3600 Hl). discriminate.
Qed.

(** C9. Evaluation of [setExpires] called without a date: [new Date(undefined)]
    is an object, hence truthy, so the alternative [now + max-age] is never
    computed. The [Expires] header is the string of the Invalid Date,
    whatever the clock and the stored max-age are, and the clock is not
    read. *)
Theorem setExpires_without_date (s : State) :
  res_get "Expires" (setExpires env None s) = Some (Date_toUTCString Invalid_Date)
  /\ ticks (setExpires env None s) = ticks s.
Proof.
  unfold setExpires. simpl. split; [| reflexivity].
  apply res_get_set_same. reflexivity.
Qed.

Lemma write_all_one_wrapper (chunks : list string) :
  forall (s : State) (c : Closure),
    wrappers s = [c] ->
    wrappers (write_all chunks s) = [fold_left (fun c d => hash_update d c) chunks c]
    /\ headers (write_all chunks s) = headers s
    /\ statusCode (write_all chunks s) = statusCode s
    /\ trace (write_all chunks s) = (trace s ++ (OriginalWrite <$> chunks))%list.
Proof.
  induction chunks as [| d rest IH]; intros s c Hs.
  - simpl. rewrite app_nil_r. auto.
  - cbn [write_all fold_left]. fold (write_all rest (res_write d s)).
    assert (Hw : wrappers (res_write d s) = [hash_update d c]).
    { unfold res_write. rewrite Hs. reflexivity. }
    destruct (IH _ _ Hw) as (H1 & H2 & H3 & H4).
    rewrite H1, H2, H3, H4. unfold res_write. rewrite Hs. simpl.
    rewrite <- app_assoc. auto.
Qed.

Lemma hash_update_fold (chunks : list string) :
  forall e lm h b,
    fold_left (fun c d => hash_update d c) chunks (mkClosure e lm (Some h) b)
    = mkClosure e lm (Some (fold_left String.append chunks h)) b.
Proof.
  induction chunks as [| d rest IH]; intros e lm h b; [reflexivity |].
  simpl. unfold hash_update at 2. simpl. apply IH.
Qed.

Lemma digest_on_end_no_data (data : option string) (c : Closure) (s : State) :
  truthy data = false -> digest_on_end data c s = (c, s).
Proof.
  unfold digest_on_end. destruct data as [d|]; [| reflexivity].
  simpl. intros ->. destruct (c_hash c); reflexivity.
Qed.

Lemma headersSent_after_output (t : list Event) (chunks : list string) :
  chunks <> [] -> existsb flushes (t ++ (OriginalWrite <$> chunks)) = true.
Proof.
  intros Hne. rewrite existsb_app. apply orb_true_iff. right.
  destruct chunks as [| d rest]; [congruence | reflexivity].
Qed.

(** C10. With auto-negotiation enabled on a response that has no [ETag] and
    no [Last-Modified] header, and the body streamed through [res.write]:
    when [res.end] is called without data (or with an empty string), no
    [ETag] header is set and the digest is not compared with the request's
    [If-None-Match], whatever that header is. The current [res.end] goes
    straight to the original [res.end] with the status untouched. The
    [res.end] of [src/index.js] does the same while the header block is
    open; once a chunk was streamed its unconditional [Cache-Control]
    header is refused and the call throws, before any comparison and
    without reaching the original [res.end]. *)
Theorem autoEtag_digest_needs_data_on_end
    (s0 : State) (chunks : list string) (data : option string) :
  _autoEtagSet s0 = false ->
  wrappers s0 = [] ->
  res_get "Etag" s0 = None ->
  res_get "Last-Modified" s0 = None ->
  truthy data = false ->
  let s := write_all chunks (autoEtag s0) in
  (res_get "Etag" (res_end env data s) = None
   /\ statusCode (res_end env data s) = statusCode s0
   /\ trace (res_end env data s) = (trace s ++ [OriginalEnd data])%list)
  /\ (exists s',
        IndexJs.res_end env data s
          = (if headersSent s then Throws ERR_HTTP_HEADERS_SENT s' else Normal s')
        /\ res_get "Etag" s' = None
        /\ statusCode s' = statusCode s0
        /\ trace s'
           = (trace s ++ (if headersSent s then [] else [OriginalEnd data]))%list)
  /\ (chunks <> [] -> headersSent s = true).
Proof.
  intros Hoff Hnone Hetag Hlm Hdata s.
  assert (Hauto : wrappers (autoEtag s0) = [mkClosure None None (Some "") false]).
  { unfold autoEtag. rewrite Hoff, Hetag, Hlm, Hnone. reflexivity. }
  destruct (write_all_one_wrapper chunks _ _ Hauto) as (Hw & Hh & Hst & Htr).
  rewrite hash_update_fold in Hw. fold s in Hw, Hh, Hst, Htr.
  rewrite autoEtag_headers in Hh.
  assert (Hs0 : statusCode (autoEtag s0) = statusCode s0).
  { unfold autoEtag. destruct (_autoEtagSet s0); reflexivity. }
  rewrite Hs0 in Hst.
  split; [| split].
  - unfold res_end. rewrite Hw. cbn [end_via c_endCalled].
    rewrite (digest_on_end_no_data _ _ _ Hdata).
    cbn [c_etag c_lastModified etag_matches lastModified_matches].
    unfold res_get. simpl. rewrite Hh. repeat split; assumption.
  - assert (Hdig : forall c st, IndexJs.digest_on_end data c st = (c, Normal st)).
    { intros c st. unfold IndexJs.digest_on_end.
      destruct data as [d |]; [| reflexivity].
      simpl in Hdata. rewrite Hdata. destruct (c_hash c); reflexivity. }
    unfold IndexJs.res_end. rewrite Hw. cbn [IndexJs.end_via c_endCalled].
    rewrite Hdig. unfold setHeader.
    destruct (headersSent s) eqn:Hsent.
    + eexists. split; [reflexivity |].
      unfold res_get. simpl. rewrite Hh, app_nil_r. repeat split; assumption.
    + cbn [c_etag c_lastModified etag_matches lastModified_matches IndexJs.end_via].
      eexists. split; [reflexivity |].
      unfold res_get. simpl. rewrite Hh. split; [| split; [assumption | reflexivity]].
      rewrite lookup_insert_ne by discriminate. exact Hetag.
  - intros Hne. unfold headersSent. rewrite Htr.
    apply headersSent_after_output. exact Hne.
Qed.

End MoreClaims.

(** ** The expiry check of [isChanged] *)

Section Refresh.

Context `{RT : Runtime} (env : Env).

Lemma restats_emit (e : Event) (s : State) :
  restats (emit e s) = (restats s + (if is_lstat e then 1 else 0))%nat.
Proof.
  unfold restats, emit. simpl. rewrite List.filter_app, length_app. simpl.
  destruct (is_lstat e); reflexivity.
Qed.

(** The state after the two statements of the expiry branch,
    [delete __watchFiles[file]; res.watchFile(file)], for a file on disk. *)
Lemma refresh_existing (file : string) (stats : Stats) (s : State) :
  files env !! file = Some stats ->
  let s1 := snd (watchFile env file
                   (with_watchFiles (delete file (__watchFiles s)) s)) in
  (exists obj,
     __watchFiles s1 !! file = Some obj
     /\ expires obj = mtime stats + _dynMaxAge s)
  /\ _dynMaxAge s1 = _dynMaxAge s
  /\ ticks s1 = S (ticks s)
  /\ restats s1 = S (restats s).
Proof.
  intros Hfile s1. subst s1. unfold watchFile. rewrite Hfile. simpl.
  split; [| split; [reflexivity | split; [reflexivity |]]].
  - eexists. split; [apply lookup_insert_eq | reflexivity].
  - unfold restats. simpl.
    rewrite !List.filter_app, !length_app. simpl. lia.
Qed.

(** An entry whose file is older than the max-age is expired again as soon
    as it is refreshed: the call never returns, and every level of the
    recursion stats the file once more. *)
Lemma isChanged_stale_never_returns (file : string) (stats : Stats) :
  files env !! file = Some stats ->
  forall (fuel : nat) (s : State) (obj : WatchedFile) (force : option bool),
    __watchFiles s !! file = Some obj ->
    (forall k, mtime stats + _dynMaxAge s < clock env k) ->
    force = Some true \/ expires obj < clock env (ticks s) ->
    exists s' obj',
      isChanged env fuel file force s = OutOfFuel s'
      /\ restats s' = (restats s + fuel)%nat
      /\ __watchFiles s' !! file = Some obj'
      /\ (expires obj' = expires obj \/ expires obj' = mtime stats + _dynMaxAge s).
Proof.
  intros Hfile. induction fuel as [| fuel IH]; intros s obj force Hobj Hold Hexp.
  - exists s, obj. simpl. rewrite Nat.add_0_r. auto.
  - cbn [isChanged]. rewrite (isWatching_true _ _ _ Hobj), Hobj. unfold Date_now.
    assert (Hgo : default false force || (expires obj <? clock env (ticks s)) = true).
    { destruct Hexp as [-> | Hlt]; [reflexivity |].
      apply orb_true_iff. right. apply Z.ltb_lt. exact Hlt. }
    rewrite Hgo.
    destruct (watchFile env file
      (with_watchFiles (delete file (__watchFiles (with_ticks (S (ticks s)) s)))
         (with_ticks (S (ticks s)) s))) as [r s1] eqn:Hw.
    pose proof (refresh_existing file stats (with_ticks (S (ticks s)) s) Hfile) as Hr.
    cbv zeta in Hr. rewrite Hw in Hr. cbn [snd] in Hr.
    destruct Hr as ((obj1 & Hobj1 & Hexp1) & Hage & _ & Hre).
    cbn [_dynMaxAge with_ticks] in Hexp1, Hage.
    destruct (IH s1 obj1 None Hobj1) as (s' & obj' & Hrun & Hcount & Hobj' & Hexp').
    + intros k. rewrite Hage. apply Hold.
    + right. rewrite Hexp1. apply Hold.
    + exists s', obj'. split; [exact Hrun | split; [| split; [exact Hobj' |]]].
      * rewrite Hcount, Hre. unfold restats. simpl. lia.
      * right. destruct Hexp' as [He | He]; rewrite He; [exact Hexp1 |].
        rewrite Hage. reflexivity.
Qed.

(** When the refreshed entry is not itself expired, the expiry branch
    stats the file exactly once and the call returns on the fresh entry. *)
Lemma isChanged_refreshes_once (file : string) (stats : Stats)
    (s : State) (obj : WatchedFile) (force : option bool) (fuel : nat) :
  files env !! file = Some stats ->
  __watchFiles s !! file = Some obj ->
  force = Some true \/ expires obj < clock env (ticks s) ->
  clock env (S (S (ticks s))) <= mtime stats + _dynMaxAge s ->
  exists b s' obj',
    isChanged env (S (S fuel)) file force s = Returned b s'
    /\ restats s' = S (restats s)
    /\ __watchFiles s' !! file = Some obj'
    /\ expires obj' = mtime stats + _dynMaxAge s.
Proof.
  intros Hfile Hobj Hexp Hfresh.
  cbn [isChanged]. rewrite (isWatching_true _ _ _ Hobj), Hobj. unfold Date_now.
  assert (Hgo : default false force || (expires obj <? clock env (ticks s)) = true).
  { destruct Hexp as [-> | Hlt]; [reflexivity |].
    apply orb_true_iff. right. apply Z.ltb_lt. exact Hlt. }
  rewrite Hgo.
  destruct (watchFile env file
    (with_watchFiles (delete file (__watchFiles (with_ticks (S (ticks s)) s)))
       (with_ticks (S (ticks s)) s))) as [r s1] eqn:Hw.
  pose proof (refresh_existing file stats (with_ticks (S (ticks s)) s) Hfile) as Hr.
  cbv zeta in Hr. rewrite Hw in Hr. cbn [snd] in Hr.
  destruct Hr as ((obj1 & Hobj1 & Hexp1) & Hage & Hticks & Hre).
  cbn [_dynMaxAge ticks with_ticks] in Hexp1, Hage, Hticks.
  rewrite (isWatching_true _ _ _ Hobj1), Hobj1. cbn [default orb].
  assert (Hnot : (expires obj1 <? clock env (ticks s1)) = false).
  { apply Z.ltb_ge. rewrite Hexp1, Hticks. exact Hfresh. }
  rewrite Hnot, setEtag_eq, setLastModifiedDate_eq.
  assert (Hkeep : forall b1 b2,
            let st := emit (LogStatistics b1 b2)
                        (autoEtag (res_set "Last-Modified"
                           (Date_toString (Date_at (modified obj1)))
                           (autoEtag (res_set "Etag" (etag obj1)
                              (with_ticks (S (ticks s1)) s1))))) in
            restats st = S (restats s) /\ __watchFiles st !! file = Some obj1).
  { intros b1 b2 st. subst st. split.
    - rewrite restats_emit. cbn [is_lstat]. rewrite Nat.add_0_r.
      unfold restats in *. unfold autoEtag.
      destruct (_autoEtagSet _); simpl; destruct (_autoEtagSet _); simpl;
        rewrite Hre; reflexivity.
    - unfold emit. cbn [__watchFiles].
      rewrite autoEtag_watchFiles. cbn [res_set with_headers __watchFiles].
      rewrite autoEtag_watchFiles. exact Hobj1. }
  destruct (negb _ && _); eexists _, _, obj1; (split; [reflexivity |]);
    (split; [apply Hkeep | split; [apply Hkeep | exact Hexp1]]).
Qed.

(** X18. When the refreshed entry of an expired one is not itself expired,
    on a clock that does not run backwards: [isChanged] returns after
    exactly one [lstatSync] and the expiry of the entry has moved
    forward. *)
Lemma isChanged_refresh_advances_expiry (file : string) (stats : Stats)
    (s : State) (obj : WatchedFile) (fuel : nat) :
  files env !! file = Some stats ->
  __watchFiles s !! file = Some obj ->
  expires obj < clock env (ticks s) ->
  clock env (ticks s) <= clock env (S (S (ticks s))) ->
  clock env (S (S (ticks s))) <= mtime stats + _dynMaxAge s ->
  exists b s' obj',
    isChanged env (S (S fuel)) file None s = Returned b s'
    /\ restats s' = S (restats s)
    /\ __watchFiles s' !! file = Some obj'
    /\ expires obj < expires obj'.
Proof.
  intros Hfile Hobj Hexp Hmono Hfresh.
  destruct (isChanged_refreshes_once file stats s obj None fuel Hfile Hobj
              (or_intror Hexp) Hfresh) as (b & s' & obj' & Hrun & Hre & Hobj' & He).
  exists b, s', obj'. repeat split; try assumption. lia.
Qed.

End Refresh.

Section StaleEntry.

Context `{RT : Runtime}.

(** C3, evaluated on a watched file that was last modified longer ago than
    the max-age (modified after 1 s, max-age 60 s, checked after an hour):
    whatever depth of recursion is allowed, the call of [isChanged] is still
    running when it is reached, and has called [lstatSync] once per level. *)
Theorem isChanged_stale_entry_recursion_unbounded (fuel : nat) :
  exists s',
    isChanged Samples.env_stale fuel Samples.file None Samples.watching
      = OutOfFuel s'
    /\ restats s' = fuel.
Proof.
  destruct (isChanged_stale_never_returns Samples.env_stale Samples.file
              (mkStats 1000 10) eq_refl fuel Samples.watching Samples.entry None)
    as (s' & obj' & Hrun & Hcount & _).
  - reflexivity.
  - intros k. simpl. lia.
  - right. simpl. lia.
  - exists s'. split; [exact Hrun | exact Hcount].
Qed.

(** C6, evaluated on the same input: no call of [isChanged] on the expired
    entry returns, and after each refresh the entry's [expires] is the
    previous one (61000), not a greater one. *)
Theorem isChanged_stale_entry_expiry_not_advanced :
  (forall fuel b s',
     isChanged Samples.env_stale fuel Samples.file None Samples.watching
       <> Returned b s')
  /\ (forall fuel,
        exists s' obj',
          isChanged Samples.env_stale (S fuel) Samples.file None Samples.watching
            = OutOfFuel s'
          /\ __watchFiles s' !! Samples.file = Some obj'
          /\ expires obj' = expires Samples.entry).
Proof.
  assert (Hloop : forall fuel, exists s' obj',
            isChanged Samples.env_stale fuel Samples.file None Samples.watching
              = OutOfFuel s'
            /\ __watchFiles s' !! Samples.file = Some obj'
            /\ expires obj' = expires Samples.entry).
  { intros fuel.
    destruct (isChanged_stale_never_returns Samples.env_stale Samples.file
                (mkStats 1000 10) eq_refl fuel Samples.watching Samples.entry None)
      as (s' & obj' & Hrun & _ & Hobj' & Hexp').
    - reflexivity.
    - intros k. simpl. lia.
    - right. simpl. lia.
    - exists s', obj'. split; [exact Hrun | split; [exact Hobj' |]].
      destruct Hexp' as [He | He]; rewrite He; reflexivity. }
  split.
  - intros fuel b s' Hret.
    destruct (Hloop fuel) as (s'' & obj' & Hrun & _). congruence.
  - intros fuel. apply Hloop.
Qed.

End StaleEntry.

(** ** The claims on concrete requests *)

Section Concrete.

Import Samples.

Local Existing Instance rt.

(** C1 on a request that carries both validators of the cached entry, and
    on a path that was never watched. *)
Lemma isChanged_verdict_witness :
  isChanged env_revalidating 1 "/tmp/missing" None watching = Returned true watching
  /\ exists b s',
       isChanged env_revalidating 1 file None watching = Returned b s'
       /\ (b = false <->
           (exists since,
              Date_of_header (req_get env_revalidating "if-modified-since") = Date_at since
              /\ modified entry <= since)
           /\ req_get env_revalidating "if-none-match" = Some (etag entry)).
Proof.
  split.
  - apply (proj1 (isChanged_verdict env_revalidating 0 "/tmp/missing" None watching)).
    vm_compute. reflexivity.
  - apply (proj2 (isChanged_verdict env_revalidating 0 file None watching) entry).
    + vm_compute. reflexivity.
    + discriminate.
    + discriminate.
    + vm_compute. discriminate.
Defined.

(** C2 as stated fails: the resource was modified one second after the
    epoch, the request says two seconds, so it is unchanged, and the call
    returns [false], not [true]. *)
Lemma setLastModifiedDate_true_when_unchanged_fails :
  ~ (fst (setLastModifiedDate env_since_2s (Date_at 1000) (fresh_response ∅)) = true
     <-> exists since,
           Date_of_header (req_get env_since_2s "if-modified-since") = Date_at since
           /\ 1000 <= since).
Proof.
  intros [_ Hback].
  assert (Hunchanged : exists since,
            Date_of_header (req_get env_since_2s "if-modified-since") = Date_at since
            /\ 1000 <= since).
  { exists 2000. split; [vm_compute; reflexivity | lia]. }
  specialize (Hback Hunchanged). vm_compute in Hback. discriminate.
Qed.

(** C4 as stated fails: the file was watched and then removed; [watchFile]
    reports the failure but the entry cached earlier is still there. *)
Lemma watchFile_missing_leaves_no_entry_fails :
  ~ (fst (watchFile env_removed file watching) = None
     /\ __watchFiles (snd (watchFile env_removed file watching)) !! file = None).
Proof.
  intros [_ Hgone]. vm_compute in Hgone. discriminate.
Qed.

Lemma watchFile_spec_witness :
  (fst (watchFile env_removed file watching) = None
   /\ __watchFiles (snd (watchFile env_removed file watching)) = __watchFiles watching)
  /\ exists obj,
       fst (watchFile env_revalidating file watching) = Some (obj, mkStats 1000 10)
       /\ __watchFiles (snd (watchFile env_revalidating file watching))
            = <[file := obj]> (__watchFiles watching)
       /\ modified obj = 1000
       /\ expires obj = 1000 + 60000.
Proof.
  split.
  - apply (proj1 (watchFile_spec env_removed file watching)).
    vm_compute. reflexivity.
  - apply (proj2 (watchFile_spec env_revalidating file watching) (mkStats 1000 10)).
    vm_compute. reflexivity.
Defined.

Lemma invalid_if_modified_since_never_matches_witness :
  fst (setLastModifiedDate env_malformed (Date_at 1000) (fresh_response ∅)) = true
  /\ lastModified_matches env_malformed (Some (Date_toString (Date_at 1000))) = false.
Proof.
  destruct (invalid_if_modified_since_never_matches env_malformed) as (Hset & Hend & _).
  - right. exists "yesterday". split; vm_compute; reflexivity.
  - split; [apply Hset | apply Hend].
Defined.

Lemma autoEtag_idempotent_witness :
  autoEtag (autoEtag (fresh_response ∅)) = autoEtag (fresh_response ∅)
  /\ length (wrappers (autoEtag (autoEtag (fresh_response ∅)))) = 1%nat.
Proof.
  split.
  - apply (proj1 (autoEtag_idempotent (fresh_response ∅))).
  - apply (proj2 (autoEtag_idempotent (fresh_response ∅))). reflexivity.
Defined.

(** C8 as stated fails for an age of 0: with a stored max-age of a minute
    the header carries [max-age=60000], not [max-age=0]. *)
Lemma setCacheControl_zero_age_fails :
  ~ (res_get "Cache-Control"
       (setCacheControl (Some 0) (Some 7%nat) with_keywords_and_age)
     = Some (join ", " ["public"; ("max-age=" ++ Number_toString 0)%string])).
Proof.
  vm_compute. discriminate.
Qed.

(** A response whose handler holds a reference to the array [["public"]]:
    the example of the claim, and an age of 0 with a stored max-age. *)
Lemma setCacheControl_spec_witness :
  (res_get "Cache-Control" (setCacheControl (Some 3600) (Some 7%nat) with_keywords)
     = Some "public, max-age=3600"
   /\ heap (setCacheControl (Some 3600) (Some 7%nat) with_keywords) !! 7%nat
        = Some ["public"; "max-age=3600"])
  /\ (res_get "Cache-Control"
        (setCacheControl (Some 0) (Some 7%nat) with_keywords_and_age)
      = Some "public, max-age=60000"
      /\ heap (setCacheControl (Some 0) (Some 7%nat) with_keywords_and_age) !! 7%nat
         = Some ["public"; "max-age=60000"]).
Proof.
  split.
  - apply (proj2 (proj2 (proj2 (proj2 (setCacheControl_spec with_keywords)))) 7%nat).
    vm_compute. reflexivity.
  - apply (proj1 (proj2 (setCacheControl_spec with_keywords_and_age))
             7%nat ["public"] (Some 0)).
    + vm_compute. reflexivity.
    + right. reflexivity.
Defined.

(** A body streamed in two chunks and ended without data, for a request
    that carries validators: the current [res.end] passes through, the one
    of [src/index.js] throws. *)
Lemma autoEtag_digest_needs_data_on_end_witness :
  (res_get "Etag"
     (res_end env_revalidating None
        (write_all ["Hello, "; "world"] (autoEtag (fresh_response ∅)))) = None
   /\ statusCode
        (res_end env_revalidating None
           (write_all ["Hello, "; "world"] (autoEtag (fresh_response ∅)))) = 200
   /\ trace
        (res_end env_revalidating None
           (write_all ["Hello, "; "world"] (autoEtag (fresh_response ∅))))
      = [OriginalWrite "Hello, "; OriginalWrite "world"; OriginalEnd None])
  /\ exists s',
       IndexJs.res_end env_revalidating None
         (write_all ["Hello, "; "world"] (autoEtag (fresh_response ∅)))
       = Throws ERR_HTTP_HEADERS_SENT s'
       /\ res_get "Etag" s' = None
       /\ trace s' = [OriginalWrite "Hello, "; OriginalWrite "world"].
Proof.
  destruct (autoEtag_digest_needs_data_on_end env_revalidating
              (fresh_response ∅) ["Hello, "; "world"] None
              eq_refl eq_refl eq_refl eq_refl eq_refl)
    as (Hcurrent & (s' & Hold & Hetag & _ & Htrace) & _).
  split; [exact Hcurrent |].
  exists s'. split; [exact Hold | split; [exact Hetag | exact Htrace]].
Defined.

(** C9 on a concrete call: a minute of max-age, an hour after the epoch.
    The header is not the date one minute later. *)
Example setExpires_without_date_sample :
  res_get "Expires" (setExpires env_stale None (setMaxAge 60000 (fresh_response ∅)))
    = Some "Invalid Date"
  /\ Date_toUTCString (Date_at (3600000 + 60000)) = "Thu, 01 Jan 1970 01:01:00 GMT".
Proof. split; vm_compute; reflexivity. Qed.

End Concrete.

(** ** Further properties of the middleware *)

Section Validators.

Context `{RT : Runtime} (env : Env).

(** X1. [setEtag] sets the [ETag] header to its argument and returns [true]
    exactly when the argument is not empty and is the request's
    [If-None-Match]. *)
Theorem setEtag_true_iff_match (e : string) (s : State) :
  res_get "Etag" (snd (setEtag env e s)) = Some e
  /\ (fst (setEtag env e s) = true <->
      e <> "" /\ req_get env "if-none-match" = Some e).
Proof.
  rewrite setEtag_eq. cbn [fst snd]. split.
  - unfold res_get. rewrite autoEtag_headers. apply lookup_insert_eq.
  - rewrite andb_true_iff, loose_eq_true. unfold str_truthy.
    rewrite negb_true_iff, String.eqb_neq. reflexivity.
Qed.

(** X2. The [setEtag] of [src/index.js] has the same effect on the response
    as the current one and returns the opposite answer. *)
Theorem IndexJs_setEtag_is_negated (e : string) (s : State) :
  IndexJs.setEtag env e s = (negb (fst (setEtag env e s)), snd (setEtag env e s)).
Proof.
  unfold IndexJs.setEtag, setEtag.
  destruct (str_truthy e && loose_eq (req_get env "if-none-match") e); reflexivity.
Qed.

End Validators.

Section WatchCache.

Context `{RT : Runtime} (env : Env).

(** X3. For a path that is not one of the names inherited from
    [Object.prototype]: after [unwatchFile] the path is not watched, the
    entries of the other paths are the same, and when the path was not
    watched the call changes nothing. *)
Theorem unwatchFile_spec (file : string) (s : State) :
  inherited file = false ->
  isWatching file (unwatchFile file s) = false
  /\ (forall other, other <> file ->
        __watchFiles (unwatchFile file s) !! other = __watchFiles s !! other)
  /\ (isWatching file s = false -> unwatchFile file s = s).
Proof.
  intros _. unfold unwatchFile. destruct (isWatching file s) eqn:Hw.
  - split; [| split].
    + apply isWatching_false. apply lookup_delete_eq.
    + intros other Hne. apply lookup_delete_ne. congruence.
    + discriminate.
  - split; [exact Hw | split; [reflexivity | reflexivity]].
Qed.

Lemma watchFile_existing (file : string) (stats : Stats) (s : State) :
  files env !! file = Some stats ->
  exists obj,
    fst (watchFile env file s) = Some (obj, stats)
    /\ __watchFiles (snd (watchFile env file s)) = <[file := obj]> (__watchFiles s)
    /\ expires obj = mtime stats + _dynMaxAge s
    /\ headers (snd (watchFile env file s)) = headers s
    /\ wrappers (snd (watchFile env file s)) = wrappers s.
Proof.
  intros Hfile. unfold watchFile. rewrite Hfile. simpl.
  eexists. repeat split.
Qed.

(** X4. A file on disk is watched after [watchFile]; if it was not watched
    before, [unwatchFile] then gives back the cache as it was. *)
Theorem watchFile_then_unwatchFile (file : string) (stats : Stats) (s : State) :
  files env !! file = Some stats ->
  isWatching file (snd (watchFile env file s)) = true
  /\ (isWatching file s = false ->
      __watchFiles (unwatchFile file (snd (watchFile env file s))) = __watchFiles s).
Proof.
  intros Hfile.
  destruct (watchFile_existing file stats s Hfile) as (obj & _ & Hmap & _).
  assert (Hw : isWatching file (snd (watchFile env file s)) = true).
  { apply (isWatching_true _ _ obj). rewrite Hmap. apply lookup_insert_eq. }
  split; [exact Hw |].
  intros Hnot. apply isWatching_false in Hnot.
  unfold unwatchFile. rewrite Hw. cbn [__watchFiles with_watchFiles].
  rewrite Hmap, delete_insert_eq. apply delete_id. exact Hnot.
Qed.

(** X5. A watched entry that has not expired is answered from the cache:
    without [force], [isChanged] returns without any call to the file
    system, leaves [__watchFiles] as it is, and sets the response's [ETag]
    and [Last-Modified] headers from the entry. *)
Theorem isChanged_fresh_entry_from_cache
    (fuel : nat) (file : string) (force : option bool) (s : State) (obj : WatchedFile) :
  __watchFiles s !! file = Some obj ->
  force <> Some true ->
  clock env (ticks s) <= expires obj ->
  exists b s',
    isChanged env (S fuel) file force s = Returned b s'
    /\ __watchFiles s' = __watchFiles s
    /\ (exists isEtagged isModified,
          trace s' = (trace s ++ [LogStatistics isEtagged isModified])%list)
    /\ res_get "Etag" s' = Some (etag obj)
    /\ res_get "Last-Modified" s' = Some (Date_toString (Date_at (modified obj))).
Proof.
  intros Hobj Hforce Hfresh. cbn [isChanged].
  rewrite (isWatching_true _ _ _ Hobj), Hobj.
  assert (Hf : default false force = false).
  { destruct force as [[|]|]; [congruence | reflexivity | reflexivity]. }
  assert (Hexp : (expires obj <? clock env (ticks s)) = false)
    by (apply Z.ltb_ge; exact Hfresh).
  rewrite Hf. unfold Date_now. rewrite Hexp. cbn [orb].
  rewrite setEtag_eq, setLastModifiedDate_eq.
  set (s' := emit _ _).
  assert (Hs' : __watchFiles s' = __watchFiles s
    /\ (exists isEtagged isModified,
          trace s' = (trace s ++ [LogStatistics isEtagged isModified])%list)
    /\ res_get "Etag" s' = Some (etag obj)
    /\ res_get "Last-Modified" s' = Some (Date_toString (Date_at (modified obj)))).
  2: { destruct (negb _ && _); eexists _, s'; (split; [reflexivity | exact Hs']). }
  subst s'. split; [| split; [| split]].
  - unfold emit. cbn [__watchFiles]. rewrite autoEtag_watchFiles.
    cbn [res_set with_headers __watchFiles]. rewrite autoEtag_watchFiles. reflexivity.
  - eexists _, _. unfold emit. cbn [trace].
    unfold autoEtag. destruct (_autoEtagSet _); simpl; destruct (_autoEtagSet _); reflexivity.
  - unfold res_get, emit. cbn [headers]. rewrite autoEtag_headers.
    cbn [res_set with_headers headers]. rewrite lookup_insert_ne by discriminate.
    rewrite autoEtag_headers. apply lookup_insert_eq.
  - unfold res_get, emit. cbn [headers]. rewrite autoEtag_headers.
    apply lookup_insert_eq.
Qed.

(** X6. When the file of an expired entry (or of a forced check) is no
    longer on disk, [isChanged] returns [true] after a single test of
    existence, without [lstatSync], and the path is no longer watched. *)
Theorem isChanged_removed_file
    (fuel : nat) (file : string) (force : option bool) (s : State) (obj : WatchedFile) :
  __watchFiles s !! file = Some obj ->
  files env !! file = None ->
  force = Some true \/ expires obj < clock env (ticks s) ->
  exists s',
    isChanged env (S (S fuel)) file force s = Returned true s'
    /\ isWatching file s' = false
    /\ trace s' = (trace s ++ [ExistsSync file])%list
    /\ headers s' = headers s.
Proof.
  intros Hobj Hfile Hexp. cbn [isChanged].
  rewrite (isWatching_true _ _ _ Hobj), Hobj. unfold Date_now.
  assert (Hgo : default false force || (expires obj <? clock env (ticks s)) = true).
  { destruct Hexp as [-> | Hlt]; [reflexivity |].
    apply orb_true_iff. right. apply Z.ltb_lt. exact Hlt. }
  rewrite Hgo. unfold watchFile. rewrite Hfile.
  assert (Hgone : forall st,
            isWatching file (emit (ExistsSync file)
              (with_watchFiles (delete file (__watchFiles st)) st)) = false).
  { intros st. apply isWatching_false. simpl. apply lookup_delete_eq. }
  rewrite Hgone. eexists. split; [reflexivity |].
  split; [apply Hgone | split; reflexivity].
Qed.

(** The entries of the other paths through one expiry branch. *)
Lemma refresh_other (file other : string) (s : State) :
  other <> file ->
  __watchFiles (snd (watchFile env file
                       (with_watchFiles (delete file (__watchFiles s)) s))) !! other
  = __watchFiles s !! other.
Proof.
  intros Hne. unfold watchFile. destruct (files env !! file); simpl.
  - rewrite lookup_insert_ne by congruence. apply lookup_delete_ne. congruence.
  - apply lookup_delete_ne. congruence.
Qed.

(** X7. Whatever [isChanged] does for one path, and whether it returns or
    not, the cached entries of every other path are untouched. *)
Theorem isChanged_other_paths_untouched (file other : string) :
  other <> file ->
  forall (fuel : nat) (force : option bool) (s : State),
    __watchFiles (state_of (isChanged env fuel file force s)) !! other
    = __watchFiles s !! other.
Proof.
  intros Hne. induction fuel as [| fuel IH]; intros force s; [reflexivity |].
  cbn [isChanged]. destruct (isWatching file s); [| reflexivity].
  destruct (__watchFiles s !! file) as [obj |] eqn:Hobj; [| reflexivity].
  unfold Date_now.
  destruct (default false force || (expires obj <? clock env (ticks s))).
  - destruct (watchFile env file _) as [r s1] eqn:Hw.
    rewrite IH.
    pose proof (refresh_other file other (with_ticks (S (ticks s)) s) Hne) as Hr.
    rewrite Hw in Hr. exact Hr.
  - rewrite setEtag_eq, setLastModifiedDate_eq.
    assert (Hkeep : forall b1 b2,
              __watchFiles (emit (LogStatistics b1 b2)
                (autoEtag (res_set "Last-Modified"
                   (Date_toString (Date_at (modified obj)))
                   (autoEtag (res_set "Etag" (etag obj)
                      (with_ticks (S (ticks s)) s)))))) = __watchFiles s).
    { intros b1 b2. unfold emit. cbn [__watchFiles]. rewrite autoEtag_watchFiles.
      cbn [res_set with_headers __watchFiles]. rewrite autoEtag_watchFiles.
      reflexivity. }
    destruct (negb _ && _); cbn [state_of]; rewrite Hkeep; reflexivity.
Qed.

(** X8. With [force], an entry that has not expired is refreshed all the
    same: the file is stat-ed once, the entry is replaced by one computed
    from the current stats and max-age, and the call returns, provided the
    new entry is not itself expired. *)
Theorem isChanged_force_recaches
    (fuel : nat) (file : string) (stats : Stats) (s : State) (obj : WatchedFile) :
  files env !! file = Some stats ->
  __watchFiles s !! file = Some obj ->
  clock env (S (S (ticks s))) <= mtime stats + _dynMaxAge s ->
  exists b s' obj',
    isChanged env (S (S fuel)) file (Some true) s = Returned b s'
    /\ restats s' = S (restats s)
    /\ __watchFiles s' !! file = Some obj'
    /\ expires obj' = mtime stats + _dynMaxAge s.
Proof.
  intros Hfile Hobj Hfresh.
  apply (isChanged_refreshes_once env file stats s obj (Some true) fuel Hfile Hobj);
    [left; reflexivity | exact Hfresh].
Qed.

End WatchCache.

Section Finalize.

Context `{RT : Runtime} (env : Env).

(** [res.end] on a response with one wrapper that has not ended yet. *)
Lemma res_end_one (c : Closure) (data : option string) (s : State) :
  wrappers s = [c] ->
  c_endCalled c = false ->
  res_end env data s =
    let '(c2, s2) :=
      digest_on_end data (mkClosure (c_etag c) (c_lastModified c) (c_hash c) true) s in
    if etag_matches env (c_etag c2) || lastModified_matches env (c_lastModified c2)
    then with_wrappers [c2] (not_modified s2)
    else with_wrappers [c2] (emit (OriginalEnd data) s2).
Proof.
  intros Hw Hend. unfold res_end. rewrite Hw. cbn [end_via]. rewrite Hend.
  destruct (digest_on_end data _ s) as [c2 s2].
  destruct (etag_matches env (c_etag c2)); [reflexivity |].
  destruct (lastModified_matches env (c_lastModified c2)); reflexivity.
Qed.

Lemma digest_on_end_no_hash (data : option string) (c : Closure) (s : State) :
  c_hash c = None -> digest_on_end data c s = (c, s).
Proof.
  intros Hh. unfold digest_on_end. rewrite Hh. destruct data; reflexivity.
Qed.

(** The state in which [autoEtag] leaves a response that had no wrapper. *)
Lemma autoEtag_first (s : State) :
  _autoEtagSet s = false ->
  wrappers s = [] ->
  wrappers (autoEtag s) =
    [mkClosure (res_get "Etag" s) (res_get "Last-Modified" s)
       (if truthy (res_get "Etag" s) || truthy (res_get "Last-Modified" s)
        then None else Some "") false]
  /\ _autoEtagSet (autoEtag s) = true
  /\ trace (autoEtag s) = trace s
  /\ statusCode (autoEtag s) = statusCode s.
Proof.
  intros Hoff Hnone. unfold autoEtag. rewrite Hoff. simpl. rewrite Hnone.
  repeat split.
Qed.

Lemma autoEtag_again (s : State) : _autoEtagSet s = true -> autoEtag s = s.
Proof. intros Hon. unfold autoEtag. rewrite Hon. reflexivity. Qed.

(** X9. When [setEtag] is the first validator declared on a response, its
    answer is the decision taken by [res.end]: 304 with the body ["Cached"]
    when it returned [true], the original [res.end] with the status
    untouched otherwise. A [Last-Modified] declared afterwards has no part
    in that decision. *)
Theorem setEtag_first_decides_finalize
    (e : string) (later : option Date) (data : option string) (s0 : State) :
  _autoEtagSet s0 = false ->
  wrappers s0 = [] ->
  res_get "Last-Modified" s0 = None ->
  e <> "" ->
  let matched := fst (setEtag env e s0) in
  let s1 := snd (setEtag env e s0) in
  let s2 := match later with
            | Some date => snd (setLastModifiedDate env date s1)
            | None => s1
            end in
  trace (res_end env data s2)
    = (trace s0 ++ [if matched then Send "Cached" else OriginalEnd data])%list
  /\ statusCode (res_end env data s2) = (if matched then 304 else statusCode s0).
Proof.
  intros Hoff Hnone Hlm He. cbv zeta. rewrite setEtag_eq. cbn [fst snd].
  assert (Hoff1 : _autoEtagSet (res_set "Etag" e s0) = false) by exact Hoff.
  assert (Hnone1 : wrappers (res_set "Etag" e s0) = []) by exact Hnone.
  destruct (autoEtag_first _ Hoff1 Hnone1) as (Hw & Hon & Htr & Hst).
  rewrite !(res_get_set_same "Etag" "Etag") in Hw by reflexivity.
  rewrite !(res_get_set_other "Last-Modified" "Etag") in Hw by discriminate.
  rewrite Hlm in Hw. cbn [truthy] in Hw. rewrite (str_truthy_true _ He) in Hw.
  cbn [orb] in Hw.
  set (s1 := autoEtag (res_set "Etag" e s0)) in *.
  set (s2 := match later with
             | Some date => snd (setLastModifiedDate env date s1)
             | None => s1
             end).
  assert (Hs2 : wrappers s2 = [mkClosure (Some e) None None false]
                /\ trace s2 = trace s0 /\ statusCode s2 = statusCode s0).
  { subst s2. destruct later as [date |].
    - rewrite setLastModifiedDate_eq. cbn [snd].
      rewrite autoEtag_again by exact Hon.
      cbn [res_set with_headers wrappers trace statusCode].
      rewrite Hw, Htr, Hst. auto.
    - rewrite Hw, Htr, Hst. auto. }
  destruct Hs2 as (Hw2 & Htr2 & Hst2).
  rewrite (res_end_one _ data s2 Hw2 eq_refl).
  rewrite digest_on_end_no_hash by reflexivity.
  cbn [c_etag c_lastModified etag_matches lastModified_matches].
  rewrite (str_truthy_true _ He), orb_false_r. cbn [andb].
  destruct (loose_eq (req_get env "if-none-match") e); simpl;
    rewrite ?Htr2, ?Hst2; auto.
Qed.

(** X10. When [setLastModifiedDate] is the first validator declared, the
    decision of [res.end] is the comparison of that date, as its header
    string parses back, with [If-Modified-Since]; an [ETag] declared
    afterwards with [setEtag] is not compared at all. *)
Theorem setLastModifiedDate_first_decides_finalize
    (date : Date) (later : option string) (data : option string) (s0 : State) :
  _autoEtagSet s0 = false ->
  wrappers s0 = [] ->
  res_get "Etag" s0 = None ->
  Date_toString date <> "" ->
  let s1 := snd (setLastModifiedDate env date s0) in
  let s2 := match later with
            | Some e => snd (setEtag env e s1)
            | None => s1
            end in
  let unchanged :=
    truthy (req_get env "if-modified-since")
    && Date_le (Date_parse (Date_toString date))
               (Date_of_header (req_get env "if-modified-since")) in
  trace (res_end env data s2)
    = (trace s0 ++ [if unchanged then Send "Cached" else OriginalEnd data])%list
  /\ statusCode (res_end env data s2) = (if unchanged then 304 else statusCode s0).
Proof.
  intros Hoff Hnone Hetag Hstr. cbv zeta. rewrite setLastModifiedDate_eq. cbn [snd].
  assert (Hoff1 : _autoEtagSet (res_set "Last-Modified" (Date_toString date) s0) = false)
    by exact Hoff.
  assert (Hnone1 : wrappers (res_set "Last-Modified" (Date_toString date) s0) = [])
    by exact Hnone.
  destruct (autoEtag_first _ Hoff1 Hnone1) as (Hw & Hon & Htr & Hst).
  rewrite (res_get_set_same "Last-Modified" "Last-Modified") in Hw by reflexivity.
  rewrite !(res_get_set_other "Etag" "Last-Modified") in Hw by discriminate.
  rewrite Hetag in Hw. cbn [truthy] in Hw. rewrite (str_truthy_true _ Hstr) in Hw.
  cbn [orb] in Hw.
  set (s1 := autoEtag (res_set "Last-Modified" (Date_toString date) s0)) in *.
  set (s2 := match later with
             | Some e => snd (setEtag env e s1)
             | None => s1
             end).
  assert (Hs2 : wrappers s2 = [mkClosure None (Some (Date_toString date)) None false]
                /\ trace s2 = trace s0 /\ statusCode s2 = statusCode s0).
  { subst s2. destruct later as [e |].
    - rewrite setEtag_eq. cbn [snd].
      rewrite autoEtag_again by exact Hon.
      cbn [res_set with_headers wrappers trace statusCode].
      rewrite Hw, Htr, Hst. auto.
    - rewrite Hw, Htr, Hst. auto. }
  destruct Hs2 as (Hw2 & Htr2 & Hst2).
  rewrite (res_end_one _ data s2 Hw2 eq_refl).
  rewrite digest_on_end_no_hash by reflexivity.
  cbn [c_etag c_lastModified etag_matches lastModified_matches orb].
  rewrite (str_truthy_true _ Hstr). cbn [andb].
  destruct (truthy (req_get env "if-modified-since")
            && Date_le (Date_parse (Date_toString date))
                 (Date_of_header (req_get env "if-modified-since")));
    simpl; rewrite ?Htr2, ?Hst2; auto.
Qed.

End Finalize.

Section FinalizeMore.

Context `{RT : Runtime} (env : Env).

(** X11. On a response on which nothing was declared before, after
    [isChanged] has answered from a cached entry, [res.end] answers 304
    exactly when the request's [If-None-Match] is the stored ETag; the
    entry's modification time, which [isChanged] also compared, plays no
    part. In particular [res.end] answers 304 whenever [isChanged] returned
    [false]. *)
Theorem isChanged_then_end
    (fuel : nat) (file : string) (force : option bool) (s : State)
    (obj : WatchedFile) (data : option string) :
  __watchFiles s !! file = Some obj ->
  etag obj <> "" ->
  force <> Some true ->
  clock env (ticks s) <= expires obj ->
  _autoEtagSet s = false ->
  wrappers s = [] ->
  res_get "Last-Modified" s = None ->
  exists b s',
    isChanged env (S fuel) file force s = Returned b s'
    /\ trace (res_end env data s')
       = (trace s' ++ [if loose_eq (req_get env "if-none-match") (etag obj)
                       then Send "Cached" else OriginalEnd data])%list
    /\ (b = false -> statusCode (res_end env data s') = 304).
Proof.
  intros Hobj Hetag Hforce Hfresh Hoff Hnone Hlm. cbn [isChanged].
  rewrite (isWatching_true _ _ _ Hobj), Hobj.
  assert (Hf : default false force = false).
  { destruct force as [[|]|]; [congruence | reflexivity | reflexivity]. }
  assert (Hexp : (expires obj <? clock env (ticks s)) = false)
    by (apply Z.ltb_ge; exact Hfresh).
  rewrite Hf. unfold Date_now. rewrite Hexp. cbn [orb].
  rewrite setEtag_eq, setLastModifiedDate_eq, (str_truthy_true _ Hetag). cbn [andb].
  set (st := with_ticks (S (ticks s)) s).
  assert (Hoff1 : _autoEtagSet (res_set "Etag" (etag obj) st) = false) by exact Hoff.
  assert (Hnone1 : wrappers (res_set "Etag" (etag obj) st) = []) by exact Hnone.
  destruct (autoEtag_first _ Hoff1 Hnone1) as (Hw & Hon & _).
  rewrite !(res_get_set_same "Etag" "Etag") in Hw by reflexivity.
  rewrite !(res_get_set_other "Last-Modified" "Etag") in Hw by discriminate.
  assert (Hlm' : res_get "Last-Modified" st = None) by exact Hlm.
  rewrite Hlm' in Hw. cbn [truthy] in Hw. rewrite (str_truthy_true _ Hetag) in Hw.
  cbn [orb] in Hw.
  set (s1 := autoEtag (res_set "Etag" (etag obj) st)) in *.
  rewrite (autoEtag_again (res_set "Last-Modified" _ s1)) by exact Hon.
  assert (Hend : forall b1 b2,
    let s' := emit (LogStatistics b1 b2)
                (res_set "Last-Modified" (Date_toString (Date_at (modified obj))) s1) in
    trace (res_end env data s')
      = (trace s' ++ [if loose_eq (req_get env "if-none-match") (etag obj)
                      then Send "Cached" else OriginalEnd data])%list
    /\ (loose_eq (req_get env "if-none-match") (etag obj) = true ->
        statusCode (res_end env data s') = 304)).
  { intros b1 b2 s'.
    assert (Hw' : wrappers s' = [mkClosure (Some (etag obj)) None None false])
      by exact Hw.
    rewrite (res_end_one env _ data s' Hw' eq_refl).
    rewrite digest_on_end_no_hash by reflexivity.
    cbn [c_etag c_lastModified etag_matches lastModified_matches].
    rewrite (str_truthy_true _ Hetag), orb_false_r. cbn [andb].
    destruct (loose_eq (req_get env "if-none-match") (etag obj));
      split; [reflexivity | reflexivity | reflexivity | discriminate]. }
  destruct (loose_eq (req_get env "if-none-match") (etag obj)) eqn:Hinm;
    destruct (Date_le (Date_at (modified obj)) _) eqn:Hle; cbn [negb andb];
    eexists _, _; (split; [reflexivity |]);
    (split; [apply Hend | first [discriminate | intros _; apply Hend; reflexivity]]).
Qed.

(** X12. With auto-negotiation on a response without validators whose
    header block is open, and the whole body given to [res.end] (nothing
    streamed before): the [ETag] header is the digest of the body, and
    [res.end] answers 304 with ["Cached"] exactly when the request's
    [If-None-Match] is that digest; otherwise the body goes to the original
    [res.end] with the status untouched. *)
Theorem autoEtag_verdict_with_data (s0 : State) (d : string) :
  _autoEtagSet s0 = false ->
  wrappers s0 = [] ->
  res_get "Etag" s0 = None ->
  res_get "Last-Modified" s0 = None ->
  headersSent s0 = false ->
  d <> "" ->
  let etag := md5_hex d in
  let s' := res_end env (Some d) (autoEtag s0) in
  res_get "Etag" s' = Some etag
  /\ trace s'
     = (trace s0 ++ [if etag_matches env (Some etag) then Send "Cached"
                     else OriginalEnd (Some d)])%list
  /\ statusCode s' = (if etag_matches env (Some etag) then 304 else statusCode s0).
Proof.
  intros Hoff Hnone Hetag Hlm _ Hd etag s'. subst s'.
  destruct (autoEtag_first _ Hoff Hnone) as (Hw & _ & Htr & Hst).
  rewrite Hetag, Hlm in Hw. cbn [truthy orb] in Hw.
  rewrite (res_end_one env _ (Some d) (autoEtag s0) Hw eq_refl).
  unfold digest_on_end. cbn [c_hash c_etag c_lastModified c_endCalled].
  rewrite (str_truthy_true _ Hd).
  change (md5_hex ("" ++ d)) with etag.
  cbn [c_etag c_lastModified lastModified_matches]. rewrite orb_false_r.
  destruct (etag_matches env (Some etag)); unfold res_get; simpl;
    rewrite ?Htr, ?Hst, ?autoEtag_headers;
    (split; [| auto]);
    try (rewrite lookup_insert_ne by discriminate); apply lookup_insert_eq.
Qed.

Lemma headersSent_res_set (name value : string) (s : State) :
  headersSent (res_set name value s) = headersSent s.
Proof. reflexivity. Qed.

(** X13. On a response with one wrapper that has not ended: while the
    header block is open, the [res.end] of [src/index.js] takes the same
    decision as the current one and leaves the same response, except that
    it also sets [Cache-Control] to the revalidation directive on responses
    that are not answered with 304. Once the header block was sent (a chunk
    was streamed), it throws instead, leaving headers, status and output as
    they were. *)
Theorem IndexJs_res_end_adds_cache_control
    (c : Closure) (data : option string) (s : State) :
  wrappers s = [c] ->
  c_endCalled c = false ->
  (headersSent s = false ->
   IndexJs.res_end env data s
   = Normal (res_set "Cache-Control" revalidate (res_end env data s)))
  /\ (headersSent s = true ->
      exists s',
        IndexJs.res_end env data s = Throws ERR_HTTP_HEADERS_SENT s'
        /\ headers s' = headers s
        /\ statusCode s' = statusCode s
        /\ trace s' = trace s).
Proof.
  intros Hw Hend.
  assert (Hsame : forall st,
            not_modified st = res_set "Cache-Control" revalidate (not_modified st)).
  { intros st. unfold not_modified, status_send, res_set, with_headers,
      with_statusCode, emit. cbn [headers statusCode _autoEtagSet _dynMaxAge wrappers
      __watchFiles heap ticks trace]. f_equal. symmetry. apply insert_insert_eq. }
  split.
  - intros Hopen.
    rewrite (res_end_one env c data s Hw Hend).
    unfold IndexJs.res_end. rewrite Hw. cbn [IndexJs.end_via]. rewrite Hend.
    assert (Hdig : IndexJs.digest_on_end data
                     (mkClosure (c_etag c) (c_lastModified c) (c_hash c) true) s
                   = (fst (digest_on_end data
                        (mkClosure (c_etag c) (c_lastModified c) (c_hash c) true) s),
                      Normal (snd (digest_on_end data
                        (mkClosure (c_etag c) (c_lastModified c) (c_hash c) true) s)))
                   /\ headersSent (snd (digest_on_end data
                        (mkClosure (c_etag c) (c_lastModified c) (c_hash c) true) s))
                      = false).
    { unfold IndexJs.digest_on_end, digest_on_end, setHeader. cbn [c_hash].
      destruct data as [d |]; [| auto]. destruct (c_hash c); [| auto].
      destruct (str_truthy d); [| auto]. rewrite Hopen. auto. }
    destruct Hdig as [Hdig Hopen2]. rewrite Hdig.
    destruct (digest_on_end data _ s) as [c2 s2]. cbn [fst snd] in *.
    unfold setHeader. rewrite Hopen2.
    destruct (etag_matches env (c_etag c2)); cbn [orb].
    + f_equal.
      change (with_wrappers [c2] (not_modified s2)
              = res_set "Cache-Control" revalidate (with_wrappers [c2] (not_modified s2))).
      rewrite (Hsame s2) at 1. reflexivity.
    + destruct (lastModified_matches env (c_lastModified c2)).
      * f_equal.
        change (with_wrappers [c2] (not_modified s2)
                = res_set "Cache-Control" revalidate
                    (with_wrappers [c2] (not_modified s2))).
        rewrite (Hsame s2) at 1. reflexivity.
      * reflexivity.
  - intros Hsent.
    unfold IndexJs.res_end. rewrite Hw. cbn [IndexJs.end_via]. rewrite Hend.
    unfold IndexJs.digest_on_end. cbn [c_hash].
    destruct data as [d |]; [destruct (c_hash c); [destruct (str_truthy d) |] |];
      unfold setHeader; rewrite Hsent;
      eexists; (split; [reflexivity | repeat split]).
Qed.

(** X14. Once [res.end] has been called on a response with at most one
    wrapper installed, a further call goes straight to the original
    [res.end]: no header, status or 304 decision is made again. *)
Theorem res_end_second_call_passes_through
    (d1 d2 : option string) (s : State) :
  (length (wrappers s) <= 1)%nat ->
  res_end env d2 (res_end env d1 s) = emit (OriginalEnd d2) (res_end env d1 s).
Proof.
  intros Hlen.
  assert (Hdone : wrappers (res_end env d1 s) = []
            \/ exists c, wrappers (res_end env d1 s) = [c] /\ c_endCalled c = true).
  { destruct (wrappers s) as [| c [| c' rest]] eqn:Hw; [| | simpl in Hlen; lia].
    - left. unfold res_end. rewrite Hw. reflexivity.
    - right. destruct (c_endCalled c) eqn:Hend.
      + exists c. unfold res_end. rewrite Hw. cbn [end_via].
        split; [rewrite Hend; reflexivity | exact Hend].
      + rewrite (res_end_one env c d1 s Hw Hend).
        assert (Hc2 : c_endCalled (fst (digest_on_end d1
                        (mkClosure (c_etag c) (c_lastModified c) (c_hash c) true) s))
                      = true).
        { unfold digest_on_end. cbn [c_hash c_endCalled].
          destruct d1 as [d |]; [| reflexivity].
          destruct (c_hash c); [| reflexivity].
          destruct (str_truthy d); reflexivity. }
        destruct (digest_on_end d1 _ s) as [c2 s2]. cbn [fst] in Hc2.
        exists c2.
        destruct (etag_matches env (c_etag c2) || lastModified_matches env (c_lastModified c2));
          (split; [reflexivity | exact Hc2]). }
  set (s1 := res_end env d1 s) in *.
  unfold res_end at 1.
  destruct Hdone as [Hws | (c & Hws & Hend)]; rewrite Hws.
  - cbn [end_via]. unfold with_wrappers, emit.
    cbn [headers statusCode _autoEtagSet _dynMaxAge wrappers __watchFiles heap ticks trace].
    rewrite Hws. reflexivity.
  - cbn [end_via]. rewrite Hend. unfold with_wrappers, emit.
    cbn [headers statusCode _autoEtagSet _dynMaxAge wrappers __watchFiles heap ticks trace].
    rewrite Hws. reflexivity.
Qed.

End FinalizeMore.

Section Hooks.

Context `{RT : Runtime} (env : Env).

Lemma hooks_ok_same (s s' : State) :
  _autoEtagSet s' = _autoEtagSet s ->
  length (wrappers s') = length (wrappers s) ->
  hooks_ok s -> hooks_ok s'.
Proof.
  intros Hflag Hlen [[Hoff Hnone] | [Hon Hone]].
  - left. split; [congruence |].
    rewrite Hnone in Hlen. destruct (wrappers s'); [reflexivity | discriminate].
  - right. split; congruence.
Qed.

Lemma hooks_ok_autoEtag (s : State) : hooks_ok s -> hooks_ok (autoEtag s).
Proof.
  intros Hok. unfold autoEtag. destruct (_autoEtagSet s) eqn:Hflag; [exact Hok |].
  destruct Hok as [[_ Hnone] | [Hon _]]; [| congruence].
  right. simpl. rewrite Hnone. auto.
Qed.

Lemma write_via_eq (ws : list Closure) (data : string) (s : State) :
  write_via ws data s = (hash_update data <$> ws, emit (OriginalWrite data) s).
Proof.
  induction ws as [| c olds IH]; [reflexivity |].
  cbn [write_via]. rewrite IH. reflexivity.
Qed.

Lemma end_via_hooks (ws : list Closure) (data : option string) :
  forall s,
    length (fst (end_via env ws data s)) = length ws
    /\ _autoEtagSet (snd (end_via env ws data s)) = _autoEtagSet s.
Proof.
  induction ws as [| c olds IH]; intros s; [split; reflexivity |].
  cbn [end_via]. destruct (c_endCalled c).
  - destruct (IH s) as [Hl Hf]. destruct (end_via env olds data s) as [olds' s'].
    cbn [fst snd length] in *. split; congruence.
  - assert (Hdig : _autoEtagSet (snd (digest_on_end data
               (mkClosure (c_etag c) (c_lastModified c) (c_hash c) true) s))
             = _autoEtagSet s).
    { unfold digest_on_end. cbn [c_hash].
      destruct data as [d |]; [| reflexivity].
      destruct (c_hash c); [| reflexivity].
      destruct (str_truthy d); reflexivity. }
    destruct (digest_on_end data _ s) as [c2 s2]. cbn [snd] in Hdig.
    destruct (etag_matches env (c_etag c2)); [split; [reflexivity | exact Hdig] |].
    destruct (lastModified_matches env (c_lastModified c2));
      [split; [reflexivity | exact Hdig] |].
    destruct (IH s2) as [Hl Hf]. destruct (end_via env olds data s2) as [olds' s'].
    cbn [fst snd length] in *. split; congruence.
Qed.

Lemma hooks_ok_res_end (data : option string) (s : State) :
  hooks_ok s -> hooks_ok (res_end env data s).
Proof.
  apply hooks_ok_same; unfold res_end;
    destruct (end_via_hooks (wrappers s) data s) as [Hl Hf];
    destruct (end_via env (wrappers s) data s) as [ws s']; [exact Hf | exact Hl].
Qed.

Lemma hooks_ok_res_write (data : string) (s : State) :
  hooks_ok s -> hooks_ok (res_write data s).
Proof.
  apply hooks_ok_same; unfold res_write; rewrite write_via_eq; simpl;
    [reflexivity | apply length_fmap].
Qed.

Lemma hooks_ok_setEtag (e : string) (s : State) :
  hooks_ok s -> hooks_ok (snd (setEtag env e s)).
Proof.
  intros Hok. rewrite setEtag_eq. apply hooks_ok_autoEtag.
  revert Hok. apply hooks_ok_same; reflexivity.
Qed.

Lemma hooks_ok_setLastModifiedDate (date : Date) (s : State) :
  hooks_ok s -> hooks_ok (snd (setLastModifiedDate env date s)).
Proof.
  intros Hok. rewrite setLastModifiedDate_eq. apply hooks_ok_autoEtag.
  revert Hok. apply hooks_ok_same; reflexivity.
Qed.

Lemma hooks_ok_watchFile (file : string) (s : State) :
  hooks_ok s -> hooks_ok (snd (watchFile env file s)).
Proof.
  apply hooks_ok_same; unfold watchFile; destruct (files env !! file); reflexivity.
Qed.

Lemma hooks_ok_setCacheControl (age : option Z) (keywords : option nat) (s : State) :
  hooks_ok s -> hooks_ok (setCacheControl age keywords s).
Proof.
  apply hooks_ok_same; unfold setCacheControl;
    destruct keywords; cbn [heap with_heap];
    match goal with |- context [match ?m !! ?k with _ => _ end] =>
      destruct (m !! k) end; reflexivity.
Qed.

Lemma hooks_ok_isChanged (file : string) :
  forall (fuel : nat) (force : option bool) (s : State),
    hooks_ok s -> hooks_ok (state_of (isChanged env fuel file force s)).
Proof.
  induction fuel as [| fuel IH]; intros force s Hok; [exact Hok |].
  cbn [isChanged]. destruct (isWatching file s); [| exact Hok].
  destruct (__watchFiles s !! file) as [obj |]; [| exact Hok].
  unfold Date_now.
  destruct (default false force || (expires obj <? clock env (ticks s))).
  - destruct (watchFile env file _) as [r s1] eqn:Hw.
    apply IH. change s1 with (snd (r, s1)). rewrite <- Hw.
    apply hooks_ok_watchFile. revert Hok. apply hooks_ok_same; reflexivity.
  - destruct (setEtag env (etag obj) _) as [isEtagged s1] eqn:He.
    destruct (setLastModifiedDate env _ s1) as [isModified s2] eqn:Hm.
    assert (Hok2 : hooks_ok s2).
    { change s2 with (snd (isModified, s2)). rewrite <- Hm.
      apply hooks_ok_setLastModifiedDate.
      change s1 with (snd (isEtagged, s1)). rewrite <- He.
      apply hooks_ok_setEtag. revert Hok. apply hooks_ok_same; reflexivity. }
    destruct (negb isModified && isEtagged); cbn [state_of];
      revert Hok2; apply hooks_ok_same; reflexivity.
Qed.

(** X15. Whatever sequence of operations a handler calls on a response, the
    [res.write] and [res.end] wrappers are installed at most once: none
    while [_autoEtagSet] is unset, exactly one afterwards. *)
Theorem hooks_installed_at_most_once (cs : list Call) (s : State) :
  hooks_ok s -> hooks_ok (run_calls env cs s).
Proof.
  revert s. induction cs as [| c cs IH]; intros s Hok; [exact Hok |].
  cbn [run_calls fold_left]. apply IH.
  destruct c; cbn [run_call].
  - apply hooks_ok_autoEtag, Hok.
  - apply hooks_ok_setEtag, Hok.
  - apply hooks_ok_setLastModifiedDate, Hok.
  - revert Hok. apply hooks_ok_same; unfold setExpires; reflexivity.
  - revert Hok. apply hooks_ok_same; reflexivity.
  - apply hooks_ok_setCacheControl, Hok.
  - apply hooks_ok_watchFile, Hok.
  - revert Hok. apply hooks_ok_same; unfold unwatchFile;
      destruct (isWatching file s); reflexivity.
  - apply hooks_ok_isChanged, Hok.
  - apply hooks_ok_res_write, Hok.
  - apply hooks_ok_res_end, Hok.
Qed.

(** X16. While no wrapper has ended (so that no digest was taken), the
    installed [res.write] is transparent: every chunk reaches the original
    [res.write], in order, and streaming changes neither the headers, the
    status, the watch cache nor the number of wrappers; it sends the header
    block. *)
Theorem res_write_transparent (chunks : list string) (s : State) :
  Forall (fun c => c_endCalled c = false) (wrappers s) ->
  trace (write_all chunks s) = (trace s ++ (OriginalWrite <$> chunks))%list
  /\ headers (write_all chunks s) = headers s
  /\ statusCode (write_all chunks s) = statusCode s
  /\ __watchFiles (write_all chunks s) = __watchFiles s
  /\ length (wrappers (write_all chunks s)) = length (wrappers s)
  /\ Forall (fun c => c_endCalled c = false) (wrappers (write_all chunks s))
  /\ (chunks <> [] -> headersSent (write_all chunks s) = true).
Proof.
  revert s. induction chunks as [| d rest IH]; intros s Hopen.
  - simpl. rewrite app_nil_r. repeat split; try assumption. congruence.
  - cbn [write_all fold_left]. fold (write_all rest (res_write d s)).
    assert (Hrw : res_write d s
                  = with_wrappers (hash_update d <$> wrappers s)
                      (emit (OriginalWrite d) s)).
    { unfold res_write. rewrite write_via_eq. reflexivity. }
    rewrite Hrw. set (s1 := with_wrappers _ _).
    assert (Hopen1 : Forall (fun c => c_endCalled c = false) (wrappers s1)).
    { subst s1. cbn [with_wrappers wrappers].
      apply Forall_fmap. eapply Forall_impl; [exact Hopen |].
      intros c Hc. unfold compose, hash_update. destruct (c_hash c); exact Hc. }
    destruct (IH s1 Hopen1) as (H1 & H2 & H3 & H4 & H5 & H6 & _).
    rewrite H1, H2, H3, H4, H5. subst s1.
    cbn [with_wrappers emit trace headers statusCode __watchFiles wrappers].
    rewrite <- app_assoc, length_fmap.
    repeat split; try assumption; try reflexivity.
    intros _. unfold headersSent. rewrite H1.
    cbn [with_wrappers emit trace].
    rewrite !existsb_app. cbn [existsb flushes]. rewrite orb_true_r. reflexivity.
Qed.

End Hooks.

Section CacheControl.

(** X17. The array given to [setCacheControl] keeps what was pushed: a
    second call with the same array puts both [max-age] items in the
    header. *)
Theorem setCacheControl_same_array_accumulates
    (s : State) (l : nat) (ks : list string) (a b : Z) :
  heap s !! l = Some ks ->
  a <> 0 ->
  b <> 0 ->
  let s2 := setCacheControl (Some b) (Some l) (setCacheControl (Some a) (Some l) s) in
  let pushed := (ks ++ [("max-age=" ++ Number_toString a)%string;
                        ("max-age=" ++ Number_toString b)%string])%list in
  res_get "Cache-Control" s2 = Some (join ", " pushed)
  /\ heap s2 !! l = Some pushed.
Proof.
  intros Hl Ha Hb s2 pushed. subst s2 pushed.
  apply Z.eqb_neq in Ha. apply Z.eqb_neq in Hb.
  set (ks1 := (ks ++ [("max-age=" ++ Number_toString a)%string])%list).
  assert (Hs1 : setCacheControl (Some a) (Some l) s
                = res_set "Cache-control" (join ", " ks1)
                    (with_heap (<[l := ks1]> (heap s)) s)).
  { unfold setCacheControl. rewrite Ha, Hl. reflexivity. }
  rewrite Hs1. unfold setCacheControl. rewrite Hb.
  cbn [res_set with_headers with_heap heap]. rewrite lookup_insert_eq.
  subst ks1. rewrite <- app_assoc. cbn [app]. split.
  - apply res_get_set_same. reflexivity.
  - cbn [with_headers with_heap heap]. apply lookup_insert_eq.
Qed.

End CacheControl.

(** ** The further properties on concrete requests *)

Section ConcreteMore.

Import Samples.

Local Existing Instance rt.

Lemma unwatchFile_spec_witness :
  isWatching file (unwatchFile file watching_two) = false
  /\ __watchFiles (unwatchFile file watching_two) !! "/tmp/g" = Some other_entry.
Proof.
  destruct (unwatchFile_spec file watching_two eq_refl) as (Hgone & Hothers & _).
  split; [exact Hgone |].
  rewrite (Hothers "/tmp/g") by discriminate. vm_compute. reflexivity.
Defined.

Lemma watchFile_then_unwatchFile_witness :
  isWatching file (snd (watchFile env_revalidating file (fresh_response ∅))) = true
  /\ __watchFiles (unwatchFile file
                     (snd (watchFile env_revalidating file (fresh_response ∅))))
     = __watchFiles (fresh_response ∅).
Proof.
  destruct (watchFile_then_unwatchFile env_revalidating file (mkStats 1000 10)
              (fresh_response ∅)) as [Hw Hback].
  - vm_compute. reflexivity.
  - split; [exact Hw | apply Hback; vm_compute; reflexivity].
Defined.

Lemma isChanged_fresh_entry_from_cache_witness :
  exists b s',
    isChanged env_revalidating 1 file None watching = Returned b s'
    /\ __watchFiles s' = __watchFiles watching
    /\ (exists isEtagged isModified,
          trace s' = (trace watching ++ [LogStatistics isEtagged isModified])%list)
    /\ res_get "Etag" s' = Some (etag entry)
    /\ res_get "Last-Modified" s' = Some (Date_toString (Date_at (modified entry))).
Proof.
  apply (isChanged_fresh_entry_from_cache env_revalidating 0 file None watching entry).
  - vm_compute. reflexivity.
  - discriminate.
  - vm_compute. discriminate.
Defined.

Lemma isChanged_removed_file_witness :
  exists s',
    isChanged env_removed 2 file (Some true) watching = Returned true s'
    /\ isWatching file s' = false
    /\ trace s' = (trace watching ++ [ExistsSync file])%list
    /\ headers s' = headers watching.
Proof.
  apply (isChanged_removed_file env_removed 0 file (Some true) watching entry).
  - vm_compute. reflexivity.
  - vm_compute. reflexivity.
  - left. reflexivity.
Defined.

(** A forced check of one file, which deletes and re-creates its entry,
    with a second file watched. *)
Lemma isChanged_other_paths_untouched_witness :
  __watchFiles (state_of (isChanged env_modified 2 file (Some true) watching_two))
    !! "/tmp/g" = Some other_entry
  /\ __watchFiles (state_of (isChanged env_modified 2 file (Some true) watching_two))
       !! file <> Some entry.
Proof.
  split.
  - rewrite (isChanged_other_paths_untouched env_modified file "/tmp/g")
      by discriminate.
    vm_compute. reflexivity.
  - vm_compute. discriminate.
Defined.

Lemma isChanged_force_recaches_witness :
  exists b s' obj',
    isChanged env_modified 2 file (Some true) watching = Returned b s'
    /\ restats s' = S (restats watching)
    /\ __watchFiles s' !! file = Some obj'
    /\ expires obj' = 3590000 + 60000.
Proof.
  apply (isChanged_force_recaches env_modified 0 file (mkStats 3590000 12) watching entry).
  - vm_compute. reflexivity.
  - vm_compute. reflexivity.
  - vm_compute. discriminate.
Defined.

Lemma isChanged_refresh_advances_expiry_witness :
  exists b s' obj',
    isChanged env_modified 2 file None watching = Returned b s'
    /\ restats s' = S (restats watching)
    /\ __watchFiles s' !! file = Some obj'
    /\ expires entry < expires obj'.
Proof.
  apply (isChanged_refresh_advances_expiry env_modified file (mkStats 3590000 12)
           watching entry 0).
  - vm_compute. reflexivity.
  - vm_compute. reflexivity.
  - vm_compute. reflexivity.
  - vm_compute. discriminate.
  - vm_compute. discriminate.
Defined.

Lemma setEtag_first_decides_finalize_witness :
  statusCode
    (res_end env_revalidating (Some "body")
       (snd (setLastModifiedDate env_revalidating (Date_at 9000)
               (snd (setEtag env_revalidating (etag entry) (fresh_response ∅))))))
  = 304.
Proof.
  destruct (setEtag_first_decides_finalize env_revalidating (etag entry)
              (Some (Date_at 9000)) (Some "body") (fresh_response ∅)
              eq_refl eq_refl eq_refl) as [_ Hstatus].
  - discriminate.
  - exact Hstatus.
Defined.

Lemma setLastModifiedDate_first_decides_finalize_witness :
  statusCode
    (res_end env_revalidating (Some "body")
       (snd (setEtag env_revalidating "another-version"
               (snd (setLastModifiedDate env_revalidating (Date_at 1000)
                       (fresh_response ∅))))))
  = 304.
Proof.
  destruct (setLastModifiedDate_first_decides_finalize env_revalidating
              (Date_at 1000) (Some "another-version") (Some "body")
              (fresh_response ∅) eq_refl eq_refl eq_refl) as [_ Hstatus].
  - vm_compute. discriminate.
  - exact Hstatus.
Defined.

Lemma isChanged_then_end_witness :
  exists b s',
    isChanged env_revalidating 1 file None watching = Returned b s'
    /\ trace (res_end env_revalidating None s')
       = (trace s' ++ [if loose_eq (req_get env_revalidating "if-none-match") (etag entry)
                       then Send "Cached" else OriginalEnd None])%list
    /\ (b = false -> statusCode (res_end env_revalidating None s') = 304).
Proof.
  apply (isChanged_then_end env_revalidating 0 file None watching entry None).
  - vm_compute. reflexivity.
  - discriminate.
  - discriminate.
  - vm_compute. discriminate.
  - reflexivity.
  - reflexivity.
  - reflexivity.
Defined.

Lemma autoEtag_verdict_with_data_witness :
  res_get "Etag" (res_end env_revalidating (Some "Hello") (autoEtag (fresh_response ∅)))
    = Some (md5_hex "Hello")
  /\ statusCode (res_end env_revalidating (Some "Hello") (autoEtag (fresh_response ∅)))
     = 200.
Proof.
  destruct (autoEtag_verdict_with_data env_revalidating (fresh_response ∅) "Hello"
              eq_refl eq_refl eq_refl eq_refl eq_refl) as (Hetag & _ & Hstatus).
  - discriminate.
  - split; [exact Hetag | exact Hstatus].
Defined.

(** The two versions on a response whose body is given to [res.end], and
    after a chunk was streamed. *)
Lemma IndexJs_res_end_adds_cache_control_witness :
  IndexJs.res_end env_revalidating (Some "body") streaming
  = Normal (res_set "Cache-Control" revalidate
              (res_end env_revalidating (Some "body") streaming))
  /\ exists s',
       IndexJs.res_end env_revalidating None (res_write "Hello" streaming)
       = Throws ERR_HTTP_HEADERS_SENT s'
       /\ trace s' = [OriginalWrite "Hello"].
Proof.
  split.
  - apply (proj1 (IndexJs_res_end_adds_cache_control env_revalidating
             (mkClosure None None (Some "") false) (Some "body") streaming
             eq_refl eq_refl)).
    reflexivity.
  - destruct (proj2 (IndexJs_res_end_adds_cache_control env_revalidating
               (mkClosure None None (Some "Hello") false) None
               (res_write "Hello" streaming) eq_refl eq_refl) eq_refl)
      as (s' & Hthrow & _ & _ & Htrace).
    exists s'. split; [exact Hthrow | exact Htrace].
Defined.

Lemma res_end_second_call_passes_through_witness :
  res_end env_revalidating None (res_end env_revalidating (Some "body") streaming)
  = emit (OriginalEnd None) (res_end env_revalidating (Some "body") streaming).
Proof.
  apply (res_end_second_call_passes_through env_revalidating (Some "body") None streaming).
  apply le_n.
Defined.

Lemma hooks_installed_at_most_once_witness :
  hooks_ok (run_calls env_revalidating handler (fresh_response ∅)).
Proof.
  apply (hooks_installed_at_most_once env_revalidating handler (fresh_response ∅)).
  left. split; reflexivity.
Defined.

Lemma res_write_transparent_witness :
  trace (write_all ["Hello, "; "world"] streaming)
    = [OriginalWrite "Hello, "; OriginalWrite "world"]
  /\ headersSent (write_all ["Hello, "; "world"] streaming) = true.
Proof.
  destruct (res_write_transparent ["Hello, "; "world"] streaming)
    as (Htrace & _ & _ & _ & _ & _ & Hsent).
  - repeat constructor.
  - split; [exact Htrace | apply Hsent; discriminate].
Defined.

Lemma setCacheControl_same_array_accumulates_witness :
  res_get "Cache-Control"
    (setCacheControl (Some 3600) (Some 7%nat)
       (setCacheControl (Some 60) (Some 7%nat) with_keywords))
  = Some "public, max-age=60, max-age=3600"
  /\ heap (setCacheControl (Some 3600) (Some 7%nat)
             (setCacheControl (Some 60) (Some 7%nat) with_keywords)) !! 7%nat
     = Some ["public"; "max-age=60"; "max-age=3600"].
Proof.
  apply (setCacheControl_same_array_accumulates with_keywords 7%nat ["public"] 60 3600).
  - vm_compute. reflexivity.
  - discriminate.
  - discriminate.
Defined.

End ConcreteMore.
